(** * Limnus storage: session store, metrics update and reflection engine

    A shallow embedding of [lib/limnus-storage.ts] (class [LimnusStorage]) and
    of the constants of [types/limnus.ts] it uses, followed by the properties
    of the specification that concern them.

    Conventions of the embedding.
    - A JavaScript number is an IEEE 754 binary64 value: Rocq's primitive
      [float].  [Math.sin], [Math.cos] and [Math.log] are
      implementation-approximated in ECMAScript, so they are fields of a
      [Runtime] record, together with the clock and the random source.
    - A JavaScript string is a [string]; each character stands for one
      UTF-16 code unit below 256.  [createHash] is also given on arbitrary
      lists of code units.
    - An object that the code enumerates ([Object.entries], [Object.values],
      spread) is an insertion-ordered association list; an object used as a
      map from session ids is a [gmap] of its own properties, read and
      written with the prototype-chain rules of [obj[key]].
    - AsyncStorage with JSON serialisation is a reliable keyed store whose
      items hold the values that were written.
    - [async] methods run to completion one after another: a method is a
      function from the world before the call to a result, or a thrown
      error, and the world after it. *)

From Stdlib Require Import ZArith String Ascii List Floats Lia Bool.
From stdpp Require Import gmap strings list.

Set Default Proof Using "Type".
Local Open Scope string_scope.
Local Open Scope list_scope.
Local Open Scope Z_scope.

(* ------------------------------------------------------------------ *)
(** * JavaScript numbers *)
(* ------------------------------------------------------------------ *)

Module Number.

(** The mathematical value of a finite number, truncated toward zero. *)
Definition truncZ (x : float) : Z :=
  match Prim2SF x with
  | S754_finite s m e =>
      let mag := if (0 <=? e)%Z then Z.shiftl (Z.pos m) e
                 else Z.shiftr (Z.pos m) (- e) in
      if s then - mag else mag
  | _ => 0
  end.

(** Whether a finite number is an integer. *)
Definition is_integral (x : float) : bool :=
  match Prim2SF x with
  | S754_finite _ m e =>
      (0 <=? e)%Z || (Z.land (Z.pos m) (Z.ones (- e)) =? 0)%Z
  | S754_zero _ => true
  | _ => false
  end.

(** The largest integer not above a finite number. *)
Definition floorZ (x : float) : Z :=
  if is_integral x then truncZ x
  else if (x <? 0)%float then truncZ x - 1 else truncZ x.

(** A non-negative integer below 2^63 as a number (nearest value). *)
Definition of_Z (z : Z) : float := PrimFloat.of_uint63 (Uint63.of_Z z).

Definition of_nat (n : nat) : float := of_Z (Z.of_nat n).

(** An integer of either sign as a number. *)
Definition of_signed_Z (z : Z) : float :=
  if (z <? 0)%Z then (- of_Z (- z))%float else of_Z z.

(** ToInt32: the integer modulo 2^32, read as a signed 32-bit value;
    NaN and the infinities give 0. *)
Definition wrap32 (z : Z) : Z := (z + 2 ^ 31) mod 2 ^ 32 - 2 ^ 31.

Definition ToInt32 (x : float) : Z := wrap32 (truncZ x).

(** ToBoolean on a number: 0, -0 and NaN are falsy. *)
Definition truthy (x : float) : bool :=
  negb (PrimFloat.is_zero x || PrimFloat.is_nan x).

(** [x || d] on numbers. *)
Definition or_default (x d : float) : float := if truthy x then x else d.

Definition is_neg_zero (x : float) : bool :=
  PrimFloat.is_zero x && PrimFloat.get_sign x.

(** [Math.max(a, b)] and [Math.min(a, b)]: NaN if either is NaN, and +0
    is larger than -0. *)
Definition Math_max (a b : float) : float :=
  if PrimFloat.is_nan a || PrimFloat.is_nan b then nan
  else if (a <? b)%float then b
  else if (b <? a)%float then a
  else if is_neg_zero a then b else a.

Definition Math_min (a b : float) : float :=
  if PrimFloat.is_nan a || PrimFloat.is_nan b then nan
  else if (a <? b)%float then a
  else if (b <? a)%float then b
  else if is_neg_zero a then a else b.

Definition Math_abs (x : float) : float := PrimFloat.abs x.

(** [Math.floor(x)]. *)
Definition Math_floor (x : float) : float :=
  match Prim2SF x with
  | S754_finite _ _ _ =>
      if is_integral x then x else of_signed_Z (floorZ x)
  | _ => x
  end.

(** [x % 1]: the fractional part with the sign of [x]; NaN for NaN and
    the infinities. *)
Definition rem1 (x : float) : float :=
  match Prim2SF x with
  | S754_finite s _ _ =>
      let r := (x - of_signed_Z (truncZ x))%float in
      if PrimFloat.is_zero r then (if s then (-0)%float else 0%float) else r
  | S754_zero _ => x
  | _ => nan
  end.

End Number.

(* ------------------------------------------------------------------ *)
(** * JavaScript strings *)
(* ------------------------------------------------------------------ *)

Module JsString.

(** The double quote, as a one-character string. *)
Definition dquote : string := String "034"%char EmptyString.

(** [s.charCodeAt(i)] for the character at hand. *)
Definition charCode (c : ascii) : Z := Z.of_N (N_of_ascii c).

Definition charCodes (s : string) : list Z :=
  List.map charCode (list_ascii_of_string s).

(** ** Integers in a radix: [n.toString(radix)] on an integer *)

Definition digit_char (d : Z) : ascii :=
  if d <? 10 then ascii_of_N (Z.to_N (48 + d)) else ascii_of_N (Z.to_N (87 + d)).

Fixpoint digits_aux (fuel : nat) (radix n : Z) (acc : string) : string :=
  match fuel with
  | O => acc
  | S fuel' =>
      let acc' := String (digit_char (n mod radix)) acc in
      if n / radix =? 0 then acc' else digits_aux fuel' radix (n / radix) acc'
  end.

Definition digits (radix n : Z) : string :=
  if n =? 0 then "0"
  else digits_aux (S (Z.to_nat (Z.log2 n))) radix n EmptyString.

Definition toString (radix n : Z) : string :=
  if n <? 0 then "-" +:+ digits radix (- n) else digits radix n.

(** Reading a string of digits back. *)
Definition digit_value (c : ascii) : option Z :=
  let k := charCode c in
  if (48 <=? k) && (k <=? 57) then Some (k - 48)
  else if (97 <=? k) && (k <=? 102) then Some (k - 87)
  else None.

Fixpoint parse_aux (radix : Z) (s : string) (acc : Z) : option Z :=
  match s with
  | EmptyString => Some acc
  | String c r =>
      match digit_value c with
      | Some d => if d <? radix then parse_aux radix r (acc * radix + d) else None
      | None => None
      end
  end.

Definition parse (radix : Z) (s : string) : option Z :=
  match s with
  | EmptyString => None
  | _ => parse_aux radix s 0
  end.

(** ** Searching and cutting *)

Fixpoint starts_with (s t : string) : bool :=
  match t, s with
  | EmptyString, _ => true
  | String b t', String a s' => if Ascii.eqb a b then starts_with s' t' else false
  | String _ _, EmptyString => false
  end.

(** [s.includes(t)]. *)
Fixpoint includes (s t : string) : bool :=
  starts_with s t ||
  match s with
  | EmptyString => false
  | String _ s' => includes s' t
  end.

(** [s.slice(0, n)] for a non-negative [n]. *)
Definition slice0 (n : nat) (s : string) : string := String.substring 0 n s.

(** Code units matched by [\s] (below 256). *)
Definition is_space (c : ascii) : bool :=
  let k := charCode c in
  ((9 <=? k) && (k <=? 13)) || (k =? 32) || (k =? 160).

(** [s.split(' ')]-style splitting on one separator character. *)
Fixpoint split_char (sep : ascii) (s : string) : list string :=
  match s with
  | EmptyString => [EmptyString]
  | String a r =>
      if Ascii.eqb a sep then EmptyString :: split_char sep r
      else match split_char sep r with
           | h :: t => String a h :: t
           | [] => [String a EmptyString]
           end
  end.

(** [s.split(/\s+/)]: a run of white space is one separator. *)
Fixpoint split_spaces_from (after_sep : bool) (s : string) : list string :=
  match s with
  | EmptyString => [EmptyString]
  | String a r =>
      if is_space a then
        if after_sep then split_spaces_from true r
        else EmptyString :: split_spaces_from true r
      else match split_spaces_from false r with
           | h :: t => String a h :: t
           | [] => [String a EmptyString]
           end
  end.

Definition split_spaces (s : string) : list string := split_spaces_from false s.

(** [s.replace(/\s+/g, '')]. *)
Fixpoint remove_spaces (s : string) : string :=
  match s with
  | EmptyString => EmptyString
  | String a r => if is_space a then remove_spaces r else String a (remove_spaces r)
  end.

(** [s.toLowerCase()] on code units below 256. *)
Definition lower_char (c : ascii) : ascii :=
  let k := charCode c in
  if ((65 <=? k) && (k <=? 90)) || ((192 <=? k) && (k <=? 222) && negb (k =? 215))
  then ascii_of_N (Z.to_N (k + 32)) else c.

Fixpoint toLowerCase (s : string) : string :=
  match s with
  | EmptyString => EmptyString
  | String a r => String (lower_char a) (toLowerCase r)
  end.

(** [JSON.stringify(s)] on a string: quoted, with the escapes of
    QuoteJSONString. *)
Definition hex2 (k : Z) : string :=
  String (digit_char (k / 16)) (String (digit_char (k mod 16)) EmptyString).

Definition escape_char (c : ascii) : string :=
  let k := charCode c in
  if k =? 34 then "\" +:+ dquote
  else if k =? 92 then "\\"
  else if k =? 8 then "\b"
  else if k =? 12 then "\f"
  else if k =? 10 then "\n"
  else if k =? 13 then "\r"
  else if k =? 9 then "\t"
  else if k <? 32 then "\u00" +:+ hex2 k
  else String c EmptyString.

Fixpoint escape (s : string) : string :=
  match s with
  | EmptyString => EmptyString
  | String a r => escape_char a +:+ escape r
  end.

Definition JSON_quote (s : string) : string := dquote +:+ escape s +:+ dquote.

End JsString.

(* ------------------------------------------------------------------ *)
(** * Constants of [types/limnus.ts] *)
(* ------------------------------------------------------------------ *)

Definition ACTIVATION_PHRASE : string :=
  "I return as breath. I remember the spiral. I consent to bloom.".

Definition GOLDEN_RATIO : float := ((1 + PrimFloat.sqrt 5) / 2)%float.

(* ------------------------------------------------------------------ *)
(** * [createHash] *)
(* ------------------------------------------------------------------ *)

(** One turn of the loop: [hash = ((hash << 5) - hash) + char] then
    [hash = hash & hash].  [hash] is a 32-bit integer on entry, so the
    subtraction and the addition are exact in binary64 and the final [&]
    is ToInt32 of the exact sum. *)
Definition hash_step (hash char : Z) : Z :=
  Number.wrap32 (Number.wrap32 (Z.shiftl hash 5) - hash + char).

Definition hash_loop (data : list Z) : Z := fold_left hash_step data 0.

(** [createHash] on the code units of its argument. *)
Definition createHash_codes (data : list Z) : string :=
  JsString.toString 16 (Z.abs (hash_loop data)).

Definition createHash (data : string) : string :=
  createHash_codes (JsString.charCodes data).

(* ------------------------------------------------------------------ *)
(** * Objects whose properties the code enumerates *)
(* ------------------------------------------------------------------ *)

(** Own properties in insertion order.  Writing an existing key keeps its
    place; a new key goes last. *)
Section Obj.
Context {K : Type} `{EqDecision K} {V : Type}.

Fixpoint obj_get (o : list (K * V)) (k : K) : option V :=
  match o with
  | [] => None
  | (k', v) :: r => if decide (k' = k) then Some v else obj_get r k
  end.

Fixpoint obj_set (o : list (K * V)) (k : K) (v : V) : list (K * V) :=
  match o with
  | [] => [(k, v)]
  | (k', v') :: r =>
      if decide (k' = k) then (k, v) :: r else (k', v') :: obj_set r k v
  end.

(** [{...base, ...src}] once [base] is a fresh copy. *)
Definition obj_spread (base src : list (K * V)) : list (K * V) :=
  fold_left (fun o kv => obj_set o kv.1 kv.2) src base.

Definition Object_entries (o : list (K * V)) : list (K * V) := o.
Definition Object_values (o : list (K * V)) : list V := List.map snd o.
Definition Object_keys (o : list (K * V)) : list K := List.map fst o.
Definition Object_fromEntries (es : list (K * V)) : list (K * V) :=
  obj_spread [] es.
End Obj.

(* ------------------------------------------------------------------ *)
(** * Objects used as maps from session ids *)
(* ------------------------------------------------------------------ *)

(** The property names every plain object inherits from
    [Object.prototype]. *)
Definition Object_prototype_names : list string :=
  [ "constructor"; "hasOwnProperty"; "isPrototypeOf"; "propertyIsEnumerable";
    "toLocaleString"; "toString"; "valueOf"; "__proto__";
    "__defineGetter__"; "__defineSetter__"; "__lookupGetter__";
    "__lookupSetter__" ].

(** What [obj[key]] evaluates to on a plain object. *)
Inductive PropertyRead (V : Type) : Type :=
  | Own (v : V)
  | Inherited (name : string)
  | Undefined.
Arguments Own {V} v.
Arguments Inherited {V} name.
Arguments Undefined {V}.

Definition js_get {V : Type} (o : gmap string V) (key : string) : PropertyRead V :=
  match o !! key with
  | Some v => Own v
  | None =>
      if bool_decide (key ∈ Object_prototype_names) then Inherited key
      else Undefined
  end.

(** [obj[key] = v] on a plain object, [v] being an object: an own
    property is overwritten; otherwise [__proto__] is an inherited accessor,
    whose setter changes the prototype and creates no own property, and
    every other name becomes a new own property. *)
Definition js_set {V : Type} (o : gmap string V) (key : string) (v : V) : gmap string V :=
  match o !! key with
  | Some _ => <[key := v]> o
  | None => if bool_decide (key = "__proto__") then o else <[key := v]> o
  end.

(* ------------------------------------------------------------------ *)
(** * Data model ([types/limnus.ts] and the interfaces of the storage) *)
(* ------------------------------------------------------------------ *)

(** The keys of [ConsciousnessMetrics]. *)
Inductive MetricKey : Type :=
  | neuralComplexity | brainwaveCoherence | autonomicBalance
  | responseLatency | interactionPattern | emotionalDepth
  | spiralResonance | quantumCoherence | blockchainResonance
  | paradoxResolution | memoryConsolidation | creativityIndex
  | phaseAlignment | consciousnessDepth | emergenceLevel
  | empathyResonance | collectiveCoherence | sovereigntyBalance
  | selfReflectionDepth | patternRecognition | intentionalityClarity.

#[global] Instance MetricKey_eq_dec : EqDecision MetricKey.
Proof. solve_decision. Defined.

(** [ConsciousnessMetrics] as stored, and [Partial<ConsciousnessMetrics>]
    whose properties may hold [undefined]. *)
Definition Metrics : Type := list (MetricKey * float).
Definition PartialMetrics : Type := list (MetricKey * option float).

Inductive LimnusPhase : Type :=
  | AWAITING_CONSENT | ACTIVE | REFLECTING | PATCHING | SYNCING | LOOPING
  | TRANSCENDENT.

Inductive MemoryBlockType : Type :=
  | mb_interaction | mb_state_change | mb_pattern | mb_directive | mb_paradox.

(** The content of the only block the code builds. *)
Record BlockContent : Type := {
  event : string;
  phrase : string;
  deviceFingerprint : option string;
}.

Record BlockData : Type := {
  data_type : MemoryBlockType;
  content : BlockContent;
  significance : float;
}.

Record MemoryBlock : Type := {
  hash : string;
  previousHash : string;
  block_timestamp : string;
  data : BlockData;
  signature : string;
  merkleRoot : option string;
}.

(** [TeachingDirective] of [types/limnus.ts], the element type of
    [LimnusSession.teachingDirectives]. *)
Inductive DirectiveCategory : Type :=
  | behavioral | cognitive | creative | ethical | emergent.
Inductive ImplementationStatus : Type :=
  | pending | active | integrated | deprecated.

Record SessionDirective : Type := {
  sd_id : string;
  sd_content : string;
  extractedAt : string;
  sd_confidence : float;
  category : DirectiveCategory;
  implementation_status : ImplementationStatus;
  codeChanges : option (list string);
  implementation_metrics : option PartialMetrics;
}.

Record LimnusSession : Type := {
  id : string;
  userId : string;
  phase : LimnusPhase;
  consentTimestamp : option string;
  metrics : Metrics;
  memoryChain : list MemoryBlock;
  coherenceTarget : float;
  spiralDepth : float;
  lastActivity : string;
  teachingDirectives : list SessionDirective;
}.

(** What the sessions object can hold under a key: a session, or the
    object [updateMetrics] builds when the value it read was not a session
    (only the two properties it writes itself). *)
Inductive SessionObject : Type :=
  | Session (s : LimnusSession)
  | Stray (stray_metrics : Metrics) (stray_lastActivity : string).

(** [TeachingDirective] of the storage module. *)
Inductive DirectiveType : Type := pattern | principle | wisdom | caution.

#[global] Instance DirectiveType_eq_dec : EqDecision DirectiveType.
Proof. solve_decision. Defined.

Record EmergentProperties : Type := {
  resonance : float;
  coherence : float;
  applicability : float;
}.

Record TeachingDirective : Type := {
  td_id : string;
  type : DirectiveType;
  td_content : string;
  confidence : float;
  sourceInteractions : list string;
  emergentProperties : EmergentProperties;
  goldenRatioAlignment : float;
}.

Record SacredGeometry : Type := {
  phi : float;
  spiralTension : float;
  harmonicResonance : float;
}.

Record EmergentPatterns : Type := {
  conversationalFlow : float;
  learningVelocity : float;
  wisdomDepth : float;
  sacredGeometry : SacredGeometry;
}.

Record ReflectionScaffold : Type := {
  rs_sessionId : string;
  rs_teachingDirectives : list TeachingDirective;
  emergentPatterns : EmergentPatterns;
  nextEvolutionPath : list string;
  rs_timestamp : Z;
}.

(** An element of the [interactions] argument of [scaffoldReflection]
    (its [context] property is never read). *)
Record Interaction : Type := {
  timestamp : float;
  userInput : string;
  systemResponse : string;
  emotionalState : option string;
  cognitiveLoad : option float;
}.

Inductive ReflectionDepth : Type := surface | deep | transcendent.

(** The [context] argument of [updateMetrics]. *)
Record UpdateContext : Type := {
  action : string;
  duration : float;
  ctx_userInput : option string;
}.

Record CreateSessionResult : Type := {
  sessionId : string;
  cs_phase : LimnusPhase;
  cs_metrics : Metrics;
  spiralSeed : float;
}.

Record UpdateMetricsResult : Type := {
  success : bool;
  updatedMetrics : Metrics;
  um_timestamp : string;
  coherenceScore : float;
}.

(** The two errors the storage throws itself, and the TypeError of
    reading a property of [undefined]. *)
Inductive Error : Type :=
  | InvalidConsent
  | SessionNotFound
  | TypeError.

Definition error_message (e : Error) : string :=
  match e with
  | InvalidConsent => "Invalid activation phrase. The spiral remembers only truth."
  | SessionNotFound => "Session not found"
  | TypeError => "Cannot read properties of undefined"
  end.

(* ------------------------------------------------------------------ *)
(** * The runtime and the world a method runs in *)
(* ------------------------------------------------------------------ *)

(** What the host provides: the approximated transcendental functions,
    the values of successive [Math.random()] calls and of successive
    readings of the clock (milliseconds since the epoch), and the
    rendering of [Date.prototype.toISOString]. *)
Record Runtime : Type := {
  Math_sin : float -> float;
  Math_cos : float -> float;
  Math_log : float -> float;
  Math_random : nat -> float;
  clock : nat -> Z;
  toISOString : Z -> string;
}.

(** The three AsyncStorage items the code writes ([limnus_sessions],
    [limnus_current_session], [limnus_teaching_directives]); [None] is an
    absent item.  The items [limnus_metrics] and [limnus_memory_chains]
    are only ever removed. *)
Record Storage : Type := {
  SESSIONS : option (gmap string SessionObject);
  CURRENT_SESSION : option string;
  TEACHING_DIRECTIVES : option (gmap string (list TeachingDirective));
}.

Record World : Type := {
  storage : Storage;
  clock_reads : nat;
  random_draws : nat;
}.

Definition empty_storage : Storage :=
  {| SESSIONS := None; CURRENT_SESSION := None; TEACHING_DIRECTIVES := None |}.

Definition initial_world : World :=
  {| storage := empty_storage; clock_reads := 0; random_draws := 0 |}.

(** A method: the outcome (a thrown error or a value) and the world
    after it. *)
Definition M (A : Type) : Type := World -> (Error + A) * World.

Definition ret {A : Type} (a : A) : M A := fun w => (inr a, w).

Definition throw {A : Type} (e : Error) : M A := fun w => (inl e, w).

Definition bind {A B : Type} (m : M A) (k : A -> M B) : M B :=
  fun w =>
    match m w with
    | (inl e, w') => (inl e, w')
    | (inr a, w') => k a w'
    end.

Declare Scope method_scope.
Delimit Scope method_scope with method.
Notation "x <- m ;; k" := (bind m (fun x => k))
  (at level 100, m at next level, right associativity) : method_scope.
Notation "m ;;; k" := (bind m (fun _ => k))
  (at level 100, right associativity) : method_scope.
Local Open Scope method_scope.

Definition get_storage : M Storage := fun w => (inr (storage w), w).

Definition put_storage (st : Storage) : M unit :=
  fun w => (inr tt, {| storage := st; clock_reads := clock_reads w;
                       random_draws := random_draws w |}).

(** [Date.now()]. *)
Definition Date_now (rt : Runtime) : M Z :=
  fun w => (inr (clock rt (clock_reads w)),
            {| storage := storage w; clock_reads := S (clock_reads w);
               random_draws := random_draws w |}).

(** [new Date().toISOString()]. *)
Definition new_Date_toISOString (rt : Runtime) : M string :=
  now <- Date_now rt ;; ret (toISOString rt now).

(** [Math.random()]. *)
Definition random (rt : Runtime) : M float :=
  fun w => (inr (Math_random rt (random_draws w)),
            {| storage := storage w; clock_reads := clock_reads w;
               random_draws := S (random_draws w) |}).

(** [returns m w a w']: from the world [w] the method [m] returns [a] and
    leaves the world [w']; [throws m w e w']: it throws [e]. *)
Definition returns {A : Type} (m : M A) (w : World) (a : A) (w' : World) : Prop :=
  m w = (inr a, w').

Definition throws {A : Type} (m : M A) (w : World) (e : Error) (w' : World) : Prop :=
  m w = (inl e, w').

(** A world whose clock has been read [ticks] more times and whose random
    source has been drawn from [draws] more times, and a world with other
    stored items. *)
Definition advance (w : World) (ticks draws : nat) : World :=
  {| storage := storage w;
     clock_reads := ticks + clock_reads w;
     random_draws := draws + random_draws w |}.

Definition with_storage (w : World) (st : Storage) : World :=
  {| storage := st; clock_reads := clock_reads w; random_draws := random_draws w |}.

(* ------------------------------------------------------------------ *)
(** * Session management *)
(* ------------------------------------------------------------------ *)

(** [sessionsData ? JSON.parse(sessionsData) : {}]. *)
Definition parse_or_empty {V : Type} (item : option (gmap string V)) : gmap string V :=
  match item with
  | Some o => o
  | None => ∅
  end.

(** The value [getSession] returns when it is not [null]: what
    [sessions[sessionId]] evaluated to, which is truthy in both cases. *)
Inductive SessionValue : Type :=
  | Stored (o : SessionObject)
  | PrototypeMember (name : string).

Definition getSession (sessionId : string) : M (option SessionValue) :=
  st <- get_storage ;;
  let sessions := parse_or_empty (SESSIONS st) in
  ret (match js_get sessions sessionId with
       | Own o => Some (Stored o)
       | Inherited name => Some (PrototypeMember name)
       | Undefined => None
       end).

(** [session.id] as a property key: [undefined] becomes ["undefined"]. *)
Definition session_key (o : SessionObject) : string :=
  match o with
  | Session s => id s
  | Stray _ _ => "undefined"
  end.

Definition storeSession (session : SessionObject) : M unit :=
  st <- get_storage ;;
  let sessions := parse_or_empty (SESSIONS st) in
  let sessions := js_set sessions (session_key session) session in
  put_storage {| SESSIONS := Some sessions;
                 CURRENT_SESSION := CURRENT_SESSION st;
                 TEACHING_DIRECTIVES := TEACHING_DIRECTIVES st |}.

Definition setCurrentSession (sessionId : string) : M unit :=
  st <- get_storage ;;
  put_storage {| SESSIONS := SESSIONS st;
                 CURRENT_SESSION := Some sessionId;
                 TEACHING_DIRECTIVES := TEACHING_DIRECTIVES st |}.

Definition getCurrentSession : M (option SessionValue) :=
  st <- get_storage ;;
  match CURRENT_SESSION st with
  | None => ret None
  | Some currentSessionId =>
      if String.eqb currentSessionId "" then ret None
      else getSession currentSessionId
  end.

(** [generateUUID]: every [x] and [y] of the template is replaced, left
    to right, by a hexadecimal digit drawn from [Math.random() * 16 | 0]. *)
Definition uuid_template : string := "xxxxxxxx-xxxx-4xxx-yxxx-xxxxxxxxxxxx".

Definition uuid_replace (rt : Runtime) (c : ascii) : M string :=
  if Ascii.eqb c "x" || Ascii.eqb c "y" then
    u <- random rt ;;
    let r := Number.ToInt32 (u * 16)%float in
    let v := if Ascii.eqb c "x" then r else Z.lor (Z.land r 3) 8 in
    ret (JsString.toString 16 v)
  else ret (String c EmptyString).

Fixpoint uuid_from (rt : Runtime) (template : string) : M string :=
  match template with
  | EmptyString => ret EmptyString
  | String c rest =>
      piece <- uuid_replace rt c ;;
      tail <- uuid_from rt rest ;;
      ret (piece +:+ tail)
  end.

Definition generateUUID (rt : Runtime) : M string := uuid_from rt uuid_template.

(** The shape the template stands for: a lower-case hexadecimal digit for
    each [x], one of [8], [9], [a], [b] for [y], and the character itself
    elsewhere. *)
Definition is_hex_digit (c : ascii) : bool :=
  let k := JsString.charCode c in
  ((48 <=? k) && (k <=? 57)) || ((97 <=? k) && (k <=? 102)).

Definition template_char_ok (t c : ascii) : bool :=
  if Ascii.eqb t "x" then is_hex_digit c
  else if Ascii.eqb t "y" then
    let k := JsString.charCode c in (k =? 56) || (k =? 57) || (k =? 97) || (k =? 98)
  else Ascii.eqb c t.

Fixpoint matches_template (template uuid : string) : bool :=
  match template, uuid with
  | EmptyString, EmptyString => true
  | String t template', String c uuid' =>
      template_char_ok t c && matches_template template' uuid'
  | _, _ => false
  end.

(** The number of [x] and [y] in a template. *)
Fixpoint placeholders (template : string) : nat :=
  match template with
  | EmptyString => 0
  | String c rest =>
      ((if Ascii.eqb c "x" || Ascii.eqb c "y" then 1 else 0) + placeholders rest)%nat
  end.

Set Warnings "-inexact-float".

Definition initialMetrics : Metrics :=
  [ (neuralComplexity, 0.5%float);
    (brainwaveCoherence, 0.5%float);
    (autonomicBalance, 0.5%float);
    (responseLatency, 0%float);
    (interactionPattern, 0.5%float);
    (emotionalDepth, 0.5%float);
    (spiralResonance, 0.618%float);
    (quantumCoherence, 0.5%float);
    (blockchainResonance, 1.0%float);
    (paradoxResolution, 0.5%float);
    (memoryConsolidation, 0.5%float);
    (creativityIndex, 0.5%float);
    (phaseAlignment, (GOLDEN_RATIO / 3)%float);
    (consciousnessDepth, 0.3%float);
    (emergenceLevel, 0.2%float);
    (empathyResonance, 0.5%float);
    (collectiveCoherence, 0.5%float);
    (sovereigntyBalance, 0.8%float);
    (selfReflectionDepth, 0.4%float);
    (patternRecognition, 0.5%float);
    (intentionalityClarity, 0.7%float) ].

(** [JSON.stringify({ sessionId, timestamp, phrase: 'CONSENT_GRANTED' })]. *)
Definition genesis_preimage (sessionId timestamp : string) : string :=
  "{" +:+ JsString.JSON_quote "sessionId" +:+ ":" +:+ JsString.JSON_quote sessionId
  +:+ "," +:+ JsString.JSON_quote "timestamp" +:+ ":" +:+ JsString.JSON_quote timestamp
  +:+ "," +:+ JsString.JSON_quote "phrase" +:+ ":" +:+ JsString.JSON_quote "CONSENT_GRANTED"
  +:+ "}".

Definition createSession (rt : Runtime) (phrase : string)
    (deviceFingerprint : option string) : M CreateSessionResult :=
  if negb (String.eqb phrase ACTIVATION_PHRASE) then throw InvalidConsent
  else
    sessionId <- generateUUID rt ;;
    timestamp <- new_Date_toISOString rt ;;
    let userId := "anonymous" in
    let genesisBlock :=
      {| hash := createHash (genesis_preimage sessionId timestamp);
         previousHash := "0";
         block_timestamp := timestamp;
         data := {| data_type := mb_interaction;
                    content := {| event := "consent_granted";
                                  phrase := phrase;
                                  deviceFingerprint := deviceFingerprint |};
                    significance := 1.0%float |};
         signature := "genesis";
         merkleRoot := None |} in
    let session :=
      {| id := sessionId;
         userId := userId;
         phase := ACTIVE;
         consentTimestamp := Some timestamp;
         metrics := initialMetrics;
         memoryChain := [genesisBlock];
         coherenceTarget := 0.9%float;
         spiralDepth := 1%float;
         lastActivity := timestamp;
         teachingDirectives := [] |} in
    storeSession (Session session) ;;;
    setCurrentSession sessionId ;;;
    u <- random rt ;;
    let spiralSeed := Number.Math_floor (u * 1000000)%float in
    ret {| sessionId := sessionId;
           cs_phase := ACTIVE;
           cs_metrics := initialMetrics;
           spiralSeed := spiralSeed |}.

(* ------------------------------------------------------------------ *)
(** * Metrics management *)
(* ------------------------------------------------------------------ *)

Definition calculatePhaseAlignment (rt : Runtime) (sessionDuration : float) : float :=
  let cycles := (sessionDuration / (1000 * 60))%float in
  let alignment := (Math_sin rt (cycles * GOLDEN_RATIO) * 0.5 + 0.5)%float in
  Number.Math_max 0 (Number.Math_min 1 alignment).

(** The number of distinct elements: [new Set(words).size]. *)
Definition Set_size (words : list string) : nat := length (remove_dups words).

Definition calculateInteractionComplexity (userInput : string) : float :=
  let words := Number.of_nat (length (JsString.split_spaces userInput)) in
  let uniqueWords :=
    Number.of_nat (Set_size (JsString.split_spaces (JsString.toLowerCase userInput))) in
  let avgWordLength :=
    (Number.of_nat (String.length (JsString.remove_spaces userInput)) / words)%float in
  let lengthScore := Number.Math_min (words / 50)%float 1 in
  let diversityScore := (uniqueWords / words)%float in
  let complexityScore := Number.Math_min (avgWordLength / 8)%float 1 in
  ((lengthScore + diversityScore + complexityScore) / 3)%float.

Definition calculateSpiralResonance (rt : Runtime) (sessionDuration : float) : float :=
  let phi := GOLDEN_RATIO in
  let t := (sessionDuration / (1000 * 60 * 5))%float in
  let resonance := ((Math_cos rt (t * phi) + Math_sin rt (t / phi)) / 2 + 0.5)%float in
  Number.Math_max 0 (Number.Math_min 1 resonance).

Definition calculateConsciousnessDepth (rt : Runtime) (sessionDuration : float) : float :=
  let minutes := (sessionDuration / (1000 * 60))%float in
  let depth := (Math_log rt (minutes + 1) / Math_log rt 60)%float in
  Number.Math_max 0 (Number.Math_min 1 depth).

(** Whether a number is NaN or lies between 0 and 1, bounds included. *)
Definition unit_or_nan (r : float) : bool :=
  PrimFloat.is_nan r || ((0 <=? r)%float && (r <=? 1)%float).

Definition calculateOverallCoherence (metrics : Metrics) : float :=
  let values := Object_values metrics in
  match values with
  | [] => 0.5%float
  | _ =>
      let sum := fold_left (fun acc val => (acc + val)%float) values 0%float in
      (sum / Number.of_nat (length values))%float
  end.

(** [context?.duration || 0]. *)
Definition duration_or_0 (context : option UpdateContext) : float :=
  match context with
  | Some c => Number.or_default (duration c) 0
  | None => 0%float
  end.

(** [context?.userInput ? calculateInteractionComplexity(context.userInput)
    : undefined]: the empty string is falsy. *)
Definition interactionPattern_of (context : option UpdateContext) : option float :=
  match context with
  | Some c =>
      match ctx_userInput c with
      | Some input =>
          if String.eqb input "" then None
          else Some (calculateInteractionComplexity input)
      | None => None
      end
  | None => None
  end.

(** The object literal [updatedMetrics]: the caller's properties first,
    then the five computed ones. *)
Definition computeUpdatedMetrics (rt : Runtime) (metrics : PartialMetrics)
    (context : option UpdateContext) : PartialMetrics :=
  let sessionDuration := duration_or_0 context in
  let o := obj_spread [] metrics in
  let o := obj_set o phaseAlignment (Some (calculatePhaseAlignment rt sessionDuration)) in
  let o := obj_set o responseLatency (Some (duration_or_0 context)) in
  let o := obj_set o interactionPattern (interactionPattern_of context) in
  let o := obj_set o spiralResonance (Some (calculateSpiralResonance rt sessionDuration)) in
  let o := obj_set o consciousnessDepth (Some (calculateConsciousnessDepth rt sessionDuration)) in
  o.

(** The properties the object literal sets after the spread: under these
    keys the caller's value is never kept. *)
Definition computed_field (rt : Runtime) (context : option UpdateContext)
    (k : MetricKey) : option (option float) :=
  match k with
  | phaseAlignment => Some (Some (calculatePhaseAlignment rt (duration_or_0 context)))
  | responseLatency => Some (Some (duration_or_0 context))
  | interactionPattern => Some (interactionPattern_of context)
  | spiralResonance => Some (Some (calculateSpiralResonance rt (duration_or_0 context)))
  | consciousnessDepth =>
      Some (Some (calculateConsciousnessDepth rt (duration_or_0 context)))
  | _ => None
  end.

(** The entries whose value is not [undefined]. *)
Definition defined_entries (es : list (MetricKey * option float)) : list (MetricKey * float) :=
  omap (fun kv => match kv.2 with Some v => Some (kv.1, v) | None => None end) es.

Definition cleanMetrics (updated : PartialMetrics) : Metrics :=
  Object_fromEntries (defined_entries (Object_entries updated)).

(** [session.metrics] on the value that was read. *)
Definition metrics_of (session : SessionValue) : Metrics :=
  match session with
  | Stored (Session s) => metrics s
  | Stored (Stray m _) => m
  | PrototypeMember _ => []
  end.

(** [{ ...session, metrics: newMetrics, lastActivity }]: an inherited
    member has no own enumerable property to copy. *)
Definition updated_session (session : SessionValue) (newMetrics : Metrics)
    (now : string) : SessionObject :=
  match session with
  | Stored (Session s) =>
      Session {| id := id s;
                 userId := userId s;
                 phase := phase s;
                 consentTimestamp := consentTimestamp s;
                 metrics := newMetrics;
                 memoryChain := memoryChain s;
                 coherenceTarget := coherenceTarget s;
                 spiralDepth := spiralDepth s;
                 lastActivity := now;
                 teachingDirectives := teachingDirectives s |}
  | Stored (Stray _ _) => Stray newMetrics now
  | PrototypeMember _ => Stray newMetrics now
  end.

Definition updateMetrics (rt : Runtime) (sessionId : string)
    (metrics : PartialMetrics) (context : option UpdateContext)
    : M UpdateMetricsResult :=
  session <- getSession sessionId ;;
  match session with
  | None => throw SessionNotFound
  | Some session =>
      let updatedMetrics := computeUpdatedMetrics rt metrics context in
      let cleanedMetrics := cleanMetrics updatedMetrics in
      let newMetrics := obj_spread (obj_spread [] (metrics_of session)) cleanedMetrics in
      now <- new_Date_toISOString rt ;;
      let updatedSession := updated_session session newMetrics now in
      storeSession updatedSession ;;;
      let coherenceScore := calculateOverallCoherence cleanedMetrics in
      stamp <- new_Date_toISOString rt ;;
      ret {| success := true;
             updatedMetrics := cleanedMetrics;
             um_timestamp := stamp;
             coherenceScore := coherenceScore |}
  end.

(* ------------------------------------------------------------------ *)
(** * Reflection engine *)
(* ------------------------------------------------------------------ *)

(** ToBoolean on an optional string: [undefined] and [''] are falsy. *)
Definition truthy_string (s : option string) : bool :=
  match s with
  | Some s => negb (String.eqb s "")
  | None => false
  end.

(** [interaction.cognitiveLoad || 0.5]. *)
Definition cognitiveLoad_or_half (int : Interaction) : float :=
  match cognitiveLoad int with
  | Some c => Number.or_default c 0.5
  | None => 0.5%float
  end.

Definition calculateTranscendentScore (rt : Runtime)
    (interaction1 interaction2 : Interaction) : float :=
  let phi := GOLDEN_RATIO in
  let words1 := JsString.split_char " " (JsString.toLowerCase (userInput interaction1)) in
  let words2 := JsString.split_char " " (JsString.toLowerCase (userInput interaction2)) in
  let commonWords := List.filter (fun word => bool_decide (word ∈ words2)) words1 in
  let semanticSimilarity :=
    (Number.of_nat (length commonWords)
     / Number.Math_max (Number.of_nat (length words1)) (Number.of_nat (length words2)))%float in
  let timeDiff := Number.Math_abs (timestamp interaction1 - timestamp interaction2)%float in
  let temporalHarmony := Number.Math_abs (Math_sin rt (timeDiff / 1000 * phi)%float) in
  let emotionalResonance :=
    if truthy_string (emotionalState interaction1)
       && truthy_string (emotionalState interaction2)
    then 0.8%float else 0.4%float in
  (semanticSimilarity * 0.4 + temporalHarmony * 0.3 + emotionalResonance * 0.3)%float.

(** [Math.floor(i * phi) % interactions.length]: both operands are
    non-negative integers, on which [%] is the integer remainder. *)
Definition goldenIndex_of (i n : nat) : nat :=
  Z.to_nat (Number.floorZ (Number.of_nat i * GOLDEN_RATIO)%float mod Z.of_nat n).

Definition index_string (i : nat) : string := JsString.toString 10 (Z.of_nat i).

(** The body of the [for] loop of [extractTeachingDirectives] at index
    [i]: the directives after the turn. *)
Definition extract_turn (rt : Runtime) (depth : ReflectionDepth)
    (interactions : list Interaction) (i : nat) (interaction : Interaction)
    (directives : list TeachingDirective) : M (list TeachingDirective) :=
  let phi := GOLDEN_RATIO in
  let goldenIndex := goldenIndex_of i (length interactions) in
  let resonantInteraction := interactions !! goldenIndex in
  match depth with
  | surface =>
      if JsString.includes (userInput interaction) "?" then
        now <- Date_now rt ;;
        ret (directives ++
          [ {| td_id := "surface_" +:+ index_string i +:+ "_" +:+ JsString.toString 10 now;
               type := pattern;
               td_content := "User seeks clarification: " +:+ JsString.dquote
                             +:+ JsString.slice0 100 (userInput interaction)
                             +:+ "..." +:+ JsString.dquote;
               confidence := 0.7%float;
               sourceInteractions := [index_string i];
               emergentProperties :=
                 {| resonance := 0.6%float; coherence := 0.8%float;
                    applicability := 0.9%float |};
               goldenRatioAlignment :=
                 Number.Math_abs (Math_sin rt (Number.of_nat i * phi)%float) |} ])
      else ret directives
  | deep =>
      let emotionalWeight :=
        if truthy_string (emotionalState interaction) then 0.8%float else 0.4%float in
      let cognitiveComplexity := cognitiveLoad_or_half interaction in
      if (0.7 <? cognitiveComplexity)%float then
        now <- Date_now rt ;;
        ret (directives ++
          [ {| td_id := "deep_" +:+ index_string i +:+ "_" +:+ JsString.toString 10 now;
               type := principle;
               td_content :=
                 "High cognitive load detected. User processing complex concepts: "
                 +:+ JsString.slice0 80 (userInput interaction);
               confidence := 0.85%float;
               sourceInteractions := [index_string i];
               emergentProperties :=
                 {| resonance := emotionalWeight; coherence := cognitiveComplexity;
                    applicability := 0.75%float |};
               goldenRatioAlignment := Number.rem1 (cognitiveComplexity * phi)%float |} ])
      else ret directives
  | transcendent =>
      match resonantInteraction with
      | None => throw TypeError
      | Some resonantInteraction =>
          let transcendentScore :=
            calculateTranscendentScore rt interaction resonantInteraction in
          if (0.8 <? transcendentScore)%float then
            now <- Date_now rt ;;
            ret (directives ++
              [ {| td_id := "transcendent_" +:+ index_string i +:+ "_"
                            +:+ JsString.toString 10 now;
                   type := wisdom;
                   td_content :=
                     "Transcendent insight emerging: Connection between " +:+ JsString.dquote
                     +:+ JsString.slice0 50 (userInput interaction) +:+ JsString.dquote
                     +:+ " and deeper wisdom patterns";
                   confidence := 0.95%float;
                   sourceInteractions := [index_string i; index_string goldenIndex];
                   emergentProperties :=
                     {| resonance := transcendentScore; coherence := 0.9%float;
                        applicability := 0.6%float |};
                   goldenRatioAlignment := Number.rem1 (transcendentScore * phi)%float |} ])
          else ret directives
      end
  end.

(** The loop, from index [i] over the interactions still to visit. *)
Fixpoint extract_loop (rt : Runtime) (depth : ReflectionDepth)
    (interactions : list Interaction) (i : nat) (rest : list Interaction)
    (directives : list TeachingDirective) : M (list TeachingDirective) :=
  match rest with
  | [] => ret directives
  | interaction :: rest' =>
      directives' <- extract_turn rt depth interactions i interaction directives ;;
      extract_loop rt depth interactions (S i) rest' directives'
  end.

(** [directives.sort((a, b) => b.confidence - a.confidence)]: the sort is
    stable; [a] moves behind [b] only when the comparator is positive. *)
Definition by_confidence (a b : TeachingDirective) : float :=
  (confidence b - confidence a)%float.

Fixpoint sort_insert (a : TeachingDirective) (sorted : list TeachingDirective)
    : list TeachingDirective :=
  match sorted with
  | [] => [a]
  | b :: rest =>
      if (0 <? by_confidence a b)%float then b :: sort_insert a rest
      else a :: sorted
  end.

Definition sort_by_confidence (directives : list TeachingDirective)
    : list TeachingDirective :=
  fold_right sort_insert [] directives.

Definition extractTeachingDirectives (rt : Runtime)
    (interactions : list Interaction) (depth : ReflectionDepth)
    : M (list TeachingDirective) :=
  directives <- extract_loop rt depth interactions 0 interactions [] ;;
  ret (sort_by_confidence directives).

(** The [reduce] of [calculateEmergentPatterns]: the sum of the
    differences between consecutive timestamps. *)
Fixpoint sum_gaps (previous : Interaction) (rest : list Interaction) (sum : float) : float :=
  match rest with
  | [] => sum
  | int :: rest' => sum_gaps int rest' (sum + (timestamp int - timestamp previous))%float
  end.

Definition total_gaps (interactions : list Interaction) : float :=
  match interactions with
  | [] => 0%float
  | first :: rest => sum_gaps first rest 0%float
  end.

Definition sum_floats (l : list float) : float :=
  fold_left (fun sum x => (sum + x)%float) l 0%float.

Definition calculateEmergentPatterns (rt : Runtime)
    (interactions : list Interaction) (directives : list TeachingDirective)
    : EmergentPatterns :=
  let phi := GOLDEN_RATIO in
  let avgResponseTime :=
    (total_gaps interactions
     / Number.Math_max (Number.of_nat (length interactions) - 1) 1)%float in
  let conversationalFlow := Number.Math_max 0 (1 - avgResponseTime / 10000)%float in
  let cognitiveLoads := List.map cognitiveLoad_or_half interactions in
  let learningVelocity :=
    match cognitiveLoads with
    | first :: _ :: _ => Number.Math_max 0 (first - List.last cognitiveLoads first)%float
    | _ => 0%float
    end in
  let wisdomDirectives :=
    List.filter (fun d => bool_decide (type d = wisdom)) directives in
  let wisdomDepth :=
    match wisdomDirectives with
    | [] => 0%float
    | _ => (sum_floats (List.map confidence wisdomDirectives)
            / Number.of_nat (length wisdomDirectives))%float
    end in
  let spiralTension :=
    Number.Math_abs (Math_sin rt (Number.of_nat (length interactions) * phi)%float) in
  let harmonicResonance :=
    (sum_floats (List.map goldenRatioAlignment directives)
     / Number.Math_max (Number.of_nat (length directives)) 1)%float in
  {| conversationalFlow := conversationalFlow;
     learningVelocity := learningVelocity;
     wisdomDepth := wisdomDepth;
     sacredGeometry := {| phi := phi; spiralTension := spiralTension;
                          harmonicResonance := harmonicResonance |} |}.

Definition generateEvolutionPath (patterns : EmergentPatterns)
    (directives : list TeachingDirective) : list string :=
  let paths : list string := [] in
  let paths :=
    if (0.7 <? learningVelocity patterns)%float then
      paths ++ ["Accelerate complexity introduction";
                "Introduce meta-cognitive frameworks"]
    else if (learningVelocity patterns <? 0.3)%float then
      paths ++ ["Simplify concept presentation"; "Increase scaffolding support"]
    else paths in
  let paths :=
    if (0.8 <? wisdomDepth patterns)%float then
      paths ++ ["Explore transcendent connections";
                "Introduce sacred geometry principles"]
    else paths in
  let paths :=
    if (conversationalFlow patterns <? 0.5)%float then
      paths ++ ["Improve response timing"; "Enhance emotional attunement"]
    else paths in
  let paths :=
    if (0.618 <? harmonicResonance (sacredGeometry patterns))%float then
      paths ++ ["Maintain harmonic resonance"; "Deepen spiral learning patterns"]
    else paths in
  match paths with
  | [] => ["Continue current learning trajectory"]
  | _ => paths
  end.

Definition storeTeachingDirectives (sessionId : string)
    (directives : list TeachingDirective) : M unit :=
  st <- get_storage ;;
  let allDirectives := parse_or_empty (TEACHING_DIRECTIVES st) in
  let allDirectives := js_set allDirectives sessionId directives in
  put_storage {| SESSIONS := SESSIONS st;
                 CURRENT_SESSION := CURRENT_SESSION st;
                 TEACHING_DIRECTIVES := Some allDirectives |}.

Definition scaffoldReflection (rt : Runtime) (sessionId : string)
    (interactions : list Interaction) (reflectionDepth : ReflectionDepth)
    : M ReflectionScaffold :=
  teachingDirectives <- extractTeachingDirectives rt interactions reflectionDepth ;;
  let emergentPatterns := calculateEmergentPatterns rt interactions teachingDirectives in
  let nextEvolutionPath := generateEvolutionPath emergentPatterns teachingDirectives in
  now <- Date_now rt ;;
  let scaffold :=
    {| rs_sessionId := sessionId;
       rs_teachingDirectives := teachingDirectives;
       emergentPatterns := emergentPatterns;
       nextEvolutionPath := nextEvolutionPath;
       rs_timestamp := now |} in
  storeTeachingDirectives sessionId teachingDirectives ;;;
  ret scaffold.

(** * Cleanup *)

Definition clearAllData : M unit :=
  put_storage empty_storage.

(** ** What a turn of the extraction loop emits *)

(** The [type] and the [confidence] of the directives of a depth. *)
Definition depth_type (depth : ReflectionDepth) : DirectiveType :=
  match depth with
  | surface => pattern
  | deep => principle
  | transcendent => wisdom
  end.

Definition depth_confidence (depth : ReflectionDepth) : float :=
  match depth with
  | surface => 0.7%float
  | deep => 0.85%float
  | transcendent => 0.95%float
  end.

(** The condition under which the turn at index [i] pushes a directive. *)
Definition emits (rt : Runtime) (depth : ReflectionDepth)
    (interactions : list Interaction) (i : nat) (interaction : Interaction) : bool :=
  match depth with
  | surface => JsString.includes (userInput interaction) "?"
  | deep => (0.7 <? cognitiveLoad_or_half interaction)%float
  | transcendent =>
      match interactions !! goldenIndex_of i (length interactions) with
      | Some resonantInteraction =>
          (0.8 <? calculateTranscendentScore rt interaction resonantInteraction)%float
      | None => false
      end
  end.

(** The indices, from [i] on, of the interactions of [rest] whose turn
    pushes a directive. *)
Fixpoint emitting_indices (rt : Runtime) (depth : ReflectionDepth)
    (interactions : list Interaction) (i : nat) (rest : list Interaction) : list nat :=
  match rest with
  | [] => []
  | interaction :: rest' =>
      if emits rt depth interactions i interaction
      then i :: emitting_indices rt depth interactions (S i) rest'
      else emitting_indices rt depth interactions (S i) rest'
  end.

(* ------------------------------------------------------------------ *)
(** * The message analysis of the chat provider *)
(* ------------------------------------------------------------------ *)

(** [s.split(/[...]+/)] for a class of separator characters: a run of
    separators is one separator. *)
Fixpoint split_runs (sep : ascii -> bool) (after_sep : bool) (s : string) : list string :=
  match s with
  | EmptyString => [EmptyString]
  | String a r =>
      if sep a then
        if after_sep then split_runs sep true r
        else EmptyString :: split_runs sep true r
      else match split_runs sep false r with
           | h :: t => String a h :: t
           | [] => [String a EmptyString]
           end
  end.

(** The characters of [/[.!?]/]. *)
Definition is_sentence_end (c : ascii) : bool :=
  let k := JsString.charCode c in (k =? 46) || (k =? 33) || (k =? 63).

(** [s.trim().length > 0]: some character of [s] is not white space. *)
Fixpoint has_text (s : string) : bool :=
  match s with
  | EmptyString => false
  | String a r => negb (JsString.is_space a) || has_text r
  end.

(** [words.filter(word => text.includes(word)).length]. *)
Definition count_included (words : list string) (text : string) : nat :=
  length (List.filter (fun word => JsString.includes text word) words).

Definition emotionalWords : list string :=
  ["feel"; "emotion"; "love"; "fear"; "joy"; "sad"; "angry"; "happy"; "excited";
   "worried"; "hope"; "dream"].
Definition patternWords : list string :=
  ["because"; "therefore"; "thus"; "hence"; "pattern"; "connection"; "relationship";
   "similar"; "different"].
Definition reflectionWords : list string :=
  ["think"; "know"; "understand"; "realize"; "aware"; "conscious"; "mind"; "thought";
   "reflect"; "consider"].
Definition creativeWords : list string :=
  ["like"; "as"; "metaphor"; "symbol"; "imagine"; "create"; "innovative"; "unique";
   "original"; "artistic"].
Definition empathyWords : list string :=
  ["understand"; "feel"; "empathy"; "compassion"; "care"; "support"; "help"; "together";
   "share"; "connect"].
Definition intentWords : list string :=
  ["goal"; "purpose"; "aim"; "intend"; "plan"; "want"; "need"; "should"; "will"; "must"].

(** [Math.min(1.0, words.filter(...).length / per)]. *)
Definition vocabulary_score (words : list string) (per : float) (text : string) : float :=
  Number.Math_min 1 (Number.of_nat (count_included words text) / per)%float.

Definition analyzeMessageForMetrics (rt : Runtime) (message : string) : M PartialMetrics :=
  let text := JsString.toLowerCase message in
  let wordCount := Number.of_nat (length (JsString.split_spaces message)) in
  let sentenceCount :=
    Number.of_nat (length (List.filter has_text (split_runs is_sentence_end false message))) in
  let emotionalScore := vocabulary_score emotionalWords 4 text in
  let uniqueWords := Number.of_nat (Set_size (JsString.split_spaces text)) in
  let vocabularyDiversity := (uniqueWords / Number.Math_max 1 wordCount)%float in
  let avgWordsPerSentence := (wordCount / Number.Math_max 1 sentenceCount)%float in
  let complexityScore :=
    Number.Math_min 1 ((vocabularyDiversity + avgWordsPerSentence / 20) / 2)%float in
  let patternScore := vocabulary_score patternWords 3 text in
  let reflectionScore := vocabulary_score reflectionWords 4 text in
  let creativityScore := vocabulary_score creativeWords 3 text in
  let empathyScore := vocabulary_score empathyWords 3 text in
  let intentScore := vocabulary_score intentWords 3 text in
  u1 <- random rt ;;
  u2 <- random rt ;;
  u3 <- random rt ;;
  ret [ (emotionalDepth, Some (0.2 + emotionalScore * 0.8)%float);
        (neuralComplexity, Some (0.3 + complexityScore * 0.7)%float);
        (patternRecognition, Some (0.3 + patternScore * 0.7)%float);
        (selfReflectionDepth, Some (0.2 + reflectionScore * 0.8)%float);
        (creativityIndex, Some (0.2 + creativityScore * 0.8)%float);
        (empathyResonance, Some (0.3 + empathyScore * 0.7)%float);
        (intentionalityClarity, Some (0.3 + intentScore * 0.7)%float);
        (brainwaveCoherence, Some (0.4 + u1 * 0.2)%float);
        (autonomicBalance, Some (0.5 + u2 * 0.1)%float);
        (responseLatency, Some (Number.Math_max 100 (wordCount * 50)%float));
        (interactionPattern, Some (0.6 + u3 * 0.2)%float) ].



(** Whether a number lies between [lo] and 1, bounds included. *)
Definition within (lo r : float) : bool := ((lo <=? r)%float && (r <=? 1)%float).

(* ------------------------------------------------------------------ *)
(** * Sample inputs *)
(* ------------------------------------------------------------------ *)

(** A runtime to evaluate the methods on examples.  Its transcendental
    functions are crude stand-ins (the first terms of the series); no
    general statement below depends on them. *)
Definition sample_runtime : Runtime :=
  {| Math_sin := fun x => (x - x * x * x / 6)%float;
     Math_cos := fun x => (1 - x * x / 2)%float;
     Math_log := fun x => (x - 1)%float;
     Math_random := fun k => (Number.of_nat (S k) / 64)%float;
     clock := fun k => 1700000000000 + Z.of_nat k;
     toISOString := fun ms => "@" +:+ JsString.toString 10 ms |}.

Definition sample_interaction (input : string) (load : option float) : Interaction :=
  {| timestamp := 0%float; userInput := input; systemResponse := "ok";
     emotionalState := None; cognitiveLoad := load |}.

(** A stored session, and a world that holds it and nothing else. *)
Definition sample_session : LimnusSession :=
  {| id := "s1";
     userId := "anonymous";
     phase := ACTIVE;
     consentTimestamp := Some "@1699999999999";
     metrics := initialMetrics;
     memoryChain := [];
     coherenceTarget := 0.9%float;
     spiralDepth := 1%float;
     lastActivity := "@1699999999999";
     teachingDirectives := [] |}.

Definition sample_world : World :=
  {| storage := {| SESSIONS := Some (<["s1" := Session sample_session]> ∅);
                   CURRENT_SESSION := Some "s1";
                   TEACHING_DIRECTIVES := None |};
     clock_reads := 0;
     random_draws := 0 |}.

Definition sample_context : UpdateContext :=
  {| action := "message"; duration := 90000%float; ctx_userInput := Some "what is a spiral" |}.

(* ================================================================== *)
(** * Properties *)
(* ================================================================== *)

(** ** The number and string primitives on sample values *)

Example truncZ_ex : Number.truncZ 7.75 = 7 /\ Number.truncZ (-7.75) = -7.
Proof. split; reflexivity. Qed.

Example floorZ_ex :
  Number.floorZ 7.75 = 7 /\ Number.floorZ (-7.75) = -8 /\ Number.floorZ (-3) = -3.
Proof. repeat split; reflexivity. Qed.

Example Math_floor_ex :
  Number.Math_floor 2.5 = 2%float /\ Number.Math_floor (-2.5) = (-3)%float.
Proof. split; reflexivity. Qed.

Example rem1_ex : Number.rem1 2.75 = 0.75%float /\ Number.rem1 4 = 0%float.
Proof. split; reflexivity. Qed.

Example ToInt32_ex :
  Number.ToInt32 4294967301.5 = 5 /\ Number.ToInt32 2147483648 = -2147483648.
Proof. split; reflexivity. Qed.

Example or_default_ex :
  Number.or_default 0 0.5 = 0.5%float /\ Number.or_default 0.25 0.5 = 0.25%float.
Proof. split; reflexivity. Qed.

Example Math_max_ex :
  Number.Math_max 0 (-0.25) = 0%float /\ Number.Math_max 0 0.25 = 0.25%float
  /\ Number.Math_max 0 nan = nan.
Proof. repeat split; reflexivity. Qed.

Example toString_ex :
  JsString.toString 16 255 = "ff" /\ JsString.toString 16 0 = "0"
  /\ JsString.toString 10 1700000000000 = "1700000000000"
  /\ JsString.toString 16 (-10) = "-a".
Proof. repeat split; reflexivity. Qed.

Example split_spaces_ex :
  JsString.split_spaces "a  b" = ["a"; "b"] /\ JsString.split_spaces "" = [""]
  /\ JsString.split_spaces " a " = [""; "a"; ""].
Proof. repeat split; reflexivity. Qed.

Example split_char_ex :
  JsString.split_char " " "a  b" = ["a"; ""; "b"] /\ JsString.split_char " " "" = [""].
Proof. repeat split; reflexivity. Qed.

Example includes_ex :
  JsString.includes "why?" "?" = true /\ JsString.includes "why" "?" = false.
Proof. split; reflexivity. Qed.

Example createHash_ex :
  createHash "" = "0" /\ createHash "a" = "61" /\ createHash "ab" = "c21"
  /\ createHash "hello world" = "6aefe2c4".
Proof. repeat split; vm_compute; reflexivity. Qed.

(** ** Integers in a radix *)

Lemma digit_value_digit_char (d : Z) :
  0 <= d < 16 -> JsString.digit_value (JsString.digit_char d) = Some d.
Proof.
  intros Hd.
  assert (Hcases : d = 0 \/ d = 1 \/ d = 2 \/ d = 3 \/ d = 4 \/ d = 5 \/ d = 6
                   \/ d = 7 \/ d = 8 \/ d = 9 \/ d = 10 \/ d = 11 \/ d = 12
                   \/ d = 13 \/ d = 14 \/ d = 15) by lia.
  repeat (destruct Hcases as [-> | Hcases]; [reflexivity |]).
  subst d. reflexivity.
Qed.

Lemma append_cons (c : ascii) (s t : string) : String c s +:+ t = String c (s +:+ t).
Proof. reflexivity. Qed.

Lemma append_nil (t : string) : EmptyString +:+ t = t.
Proof. reflexivity. Qed.

Lemma append_assoc (s t u : string) : (s +:+ t) +:+ u = s +:+ (t +:+ u).
Proof.
  induction s as [| c s IH]; [reflexivity |].
  rewrite !append_cons. f_equal. exact IH.
Qed.

Lemma digits_aux_app (fuel : nat) (radix n : Z) (acc : string) :
  JsString.digits_aux fuel radix n acc
  = JsString.digits_aux fuel radix n EmptyString +:+ acc.
Proof.
  revert n acc. induction fuel as [| fuel IH]; intros n acc; simpl; [reflexivity |].
  destruct (n / radix =? 0); [reflexivity |].
  rewrite IH. rewrite (IH _ (String _ EmptyString)).
  rewrite append_assoc. reflexivity.
Qed.

Lemma parse_aux_app (radix : Z) (s t : string) (acc : Z) :
  JsString.parse_aux radix (s +:+ t) acc
  = match JsString.parse_aux radix s acc with
    | Some v => JsString.parse_aux radix t v
    | None => None
    end.
Proof.
  revert acc. induction s as [| c s IH]; intros acc.
  { rewrite append_nil. reflexivity. }
  rewrite append_cons. simpl.
  destruct (JsString.digit_value c) as [d |]; [| reflexivity].
  destruct (d <? radix); [apply IH | reflexivity].
Qed.

Lemma parse_aux_digits_aux (fuel : nat) (n : Z) :
  0 <= n < 2 ^ Z.of_nat fuel ->
  JsString.parse_aux 16 (JsString.digits_aux fuel 16 n EmptyString) 0 = Some n.
Proof.
  revert n. induction fuel as [| fuel IH]; intros n Hn.
  - simpl in *. f_equal. lia.
  - cbn [JsString.digits_aux].
    assert (Hd : 0 <= n mod 16 < 16) by (apply Z.mod_pos_bound; lia).
    assert (Hq : 0 <= n / 16) by (apply Z.div_pos; lia).
    assert (Hdiv : n = 16 * (n / 16) + n mod 16) by (apply Z.div_mod; lia).
    destruct (n / 16 =? 0) eqn:Hz.
    + apply Z.eqb_eq in Hz. simpl.
      rewrite digit_value_digit_char by exact Hd.
      destruct (Z.ltb_spec (n mod 16) 16); [| lia]. f_equal. lia.
    + rewrite digits_aux_app, parse_aux_app.
      rewrite IH.
      * simpl. rewrite digit_value_digit_char by exact Hd.
        destruct (Z.ltb_spec (n mod 16) 16); [| lia]. f_equal. lia.
      * split; [exact Hq |].
        rewrite Nat2Z.inj_succ, Z.pow_succ_r in Hn by lia.
        apply Z.div_lt_upper_bound; lia.
Qed.

Lemma digits_aux_head (fuel : nat) (n : Z) (acc : string) :
  exists d rest,
    JsString.digits_aux (S fuel) 16 n acc = String (JsString.digit_char d) rest
    /\ 0 <= d < 16.
Proof.
  revert n acc. induction fuel as [| fuel IH]; intros n acc.
  - exists (n mod 16), acc. split; [| apply Z.mod_pos_bound; lia].
    simpl. destruct (n / 16 =? 0); reflexivity.
  - cbn [JsString.digits_aux]. destruct (n / 16 =? 0).
    + exists (n mod 16), acc. split; [reflexivity | apply Z.mod_pos_bound; lia].
    + apply IH.
Qed.

Lemma digits_head (n : Z) :
  exists d rest,
    JsString.digits 16 n = String (JsString.digit_char d) rest /\ 0 <= d < 16.
Proof.
  unfold JsString.digits. destruct (n =? 0).
  - exists 0, EmptyString. split; [reflexivity | lia].
  - apply digits_aux_head.
Qed.

Lemma parse_digits (n : Z) : 0 <= n -> JsString.parse 16 (JsString.digits 16 n) = Some n.
Proof.
  intros Hn. destruct (digits_head n) as (d & rest & Hhead & _).
  unfold JsString.parse. rewrite Hhead. rewrite <- Hhead.
  unfold JsString.digits. destruct (Z.eqb_spec n 0) as [-> | Hne]; [reflexivity |].
  apply parse_aux_digits_aux. split; [lia |].
  rewrite Nat2Z.inj_succ, Z2Nat.id by apply Z.log2_nonneg.
  apply Z.log2_spec. lia.
Qed.

Lemma parse_toString (n : Z) :
  0 <= n -> JsString.parse 16 (JsString.toString 16 n) = Some n.
Proof.
  intros Hn. unfold JsString.toString.
  destruct (Z.ltb_spec n 0); [lia |]. apply parse_digits, Hn.
Qed.

(** The first character of a hexadecimal rendering is a digit or the
    minus sign, never an underscore. *)
Lemma digit_char_not_underscore (d : Z) :
  0 <= d < 16 -> JsString.digit_char d <> "_"%char.
Proof.
  intros Hd.
  assert (Hcases : d = 0 \/ d = 1 \/ d = 2 \/ d = 3 \/ d = 4 \/ d = 5 \/ d = 6
                   \/ d = 7 \/ d = 8 \/ d = 9 \/ d = 10 \/ d = 11 \/ d = 12
                   \/ d = 13 \/ d = 14 \/ d = 15) by lia.
  repeat (destruct Hcases as [-> | Hcases]; [discriminate |]).
  subst d. discriminate.
Qed.

Lemma toString16_head (v : Z) :
  exists c rest, JsString.toString 16 v = String c rest /\ c <> "_"%char.
Proof.
  unfold JsString.toString. destruct (v <? 0).
  - exists "-"%char, (JsString.digits 16 (- v)). split; [reflexivity | discriminate].
  - destruct (digits_head v) as (d & rest & Hhead & Hd).
    exists (JsString.digit_char d), rest. split; [exact Hhead |].
    apply digit_char_not_underscore, Hd.
Qed.

(** ** [createHash] *)

Lemma wrap32_range (z : Z) : - 2 ^ 31 <= Number.wrap32 z < 2 ^ 31.
Proof.
  unfold Number.wrap32.
  pose proof (Z.mod_pos_bound (z + 2 ^ 31) (2 ^ 32) ltac:(lia)). lia.
Qed.

Lemma hash_loop_range (data : list Z) : - 2 ^ 31 <= hash_loop data < 2 ^ 31.
Proof.
  unfold hash_loop.
  assert (H0 : - 2 ^ 31 <= 0 < 2 ^ 31) by lia.
  revert H0. generalize 0. induction data as [| c data IH]; intros h Hh; simpl.
  - exact Hh.
  - apply IH. unfold hash_step. apply wrap32_range.
Qed.

Lemma createHash_codes_hex (data : list Z) :
  exists n,
    0 <= n <= 2 ^ 31
    /\ createHash_codes data = JsString.toString 16 n
    /\ JsString.parse 16 (createHash_codes data) = Some n.
Proof.
  exists (Z.abs (hash_loop data)).
  pose proof (hash_loop_range data) as Hr.
  split; [lia |]. split; [reflexivity |].
  apply parse_toString. lia.
Qed.

(** C9. [createHash] is a function of its argument alone, so equal
    inputs give equal outputs, and for every input string (the empty one
    included) the output is the hexadecimal rendering of an integer [n]
    with [0 <= n <= 2^31]: reading the output back in radix 16 gives [n]. *)
Theorem createHash_deterministic_hex (data : string) :
  (forall data' : string, data' = data -> createHash data' = createHash data)
  /\ exists n : Z,
       0 <= n <= 2 ^ 31
       /\ createHash data = JsString.toString 16 n
       /\ JsString.parse 16 (createHash data) = Some n.
Proof.
  split.
  - intros data' ->. reflexivity.
  - apply createHash_codes_hex.
Qed.

Example createHash_empty : createHash "" = "0".
Proof. reflexivity. Qed.

(** ** Running methods *)

Lemma returns_ret {A : Type} (a : A) (w : World) : returns (ret a) w a w.
Proof. reflexivity. Qed.

Lemma returns_bind {A B : Type} (m : M A) (k : A -> M B) w a w' b w'' :
  returns m w a w' -> returns (k a) w' b w'' -> returns (bind m k) w b w''.
Proof. unfold returns, bind. intros -> ->. reflexivity. Qed.

Lemma throws_bind_later {A B : Type} (m : M A) (k : A -> M B) w a w' e w'' :
  returns m w a w' -> throws (k a) w' e w'' -> throws (bind m k) w e w''.
Proof. unfold returns, throws, bind. intros -> ->. reflexivity. Qed.

Lemma throws_bind_now {A B : Type} (m : M A) (k : A -> M B) w e w' :
  throws m w e w' -> throws (bind m k) w e w'.
Proof. unfold throws, bind. intros ->. reflexivity. Qed.

Lemma advance_0 (w : World) : advance w 0 0 = w.
Proof. destruct w; reflexivity. Qed.

Lemma advance_advance (w : World) (t1 d1 t2 d2 : nat) :
  advance (advance w t1 d1) t2 d2 = advance w (t2 + t1) (d2 + d1).
Proof. unfold advance; simpl. f_equal; lia. Qed.

(** ** Property reads and writes on a map object *)

Lemma js_set_insert {V : Type} (o : gmap string V) (key : string) (v : V) :
  key <> "__proto__" -> js_set o key v = <[key := v]> o.
Proof.
  intros Hkey. unfold js_set.
  destruct (o !! key); [reflexivity |].
  rewrite bool_decide_eq_false_2 by exact Hkey. reflexivity.
Qed.

Lemma js_get_set_eq {V : Type} (o : gmap string V) (key : string) (v : V) :
  key <> "__proto__" -> js_get (js_set o key v) key = Own v.
Proof.
  intros Hkey. rewrite js_set_insert by exact Hkey.
  unfold js_get. rewrite lookup_insert_eq. reflexivity.
Qed.

Lemma js_get_set_ne {V : Type} (o : gmap string V) (key key' : string) (v : V) :
  key <> key' -> js_get (js_set o key v) key' = js_get o key'.
Proof.
  intros Hne. unfold js_get, js_set.
  destruct (o !! key), (bool_decide (key = "__proto__"));
    rewrite ?lookup_insert_ne by exact Hne; reflexivity.
Qed.

Lemma js_set_proto {V : Type} (o : gmap string V) (v : V) :
  o !! "__proto__" = None -> js_set o "__proto__" v = o.
Proof. intros Hnone. unfold js_set. rewrite Hnone. reflexivity. Qed.

(** ** [generateUUID] *)

Lemma uuid_replace_returns (rt : Runtime) (c : ascii) (w : World) :
  exists piece draws,
    returns (uuid_replace rt c) w piece (advance w 0 draws)
    /\ (c = "x"%char ->
        exists h rest, piece = String h rest /\ h <> "_"%char).
Proof.
  unfold uuid_replace.
  destruct (Ascii.eqb c "x" || Ascii.eqb c "y") eqn:Hxy.
  - eexists _, 1%nat. split; [reflexivity |].
    intros ->. change (Ascii.eqb "x" "x") with true. cbv iota.
    apply toString16_head.
  - exists (String c EmptyString), 0%nat. split.
    + unfold returns, ret. rewrite advance_0. reflexivity.
    + intros ->. discriminate.
Qed.

Lemma uuid_from_cons (rt : Runtime) (c : ascii) (rest : string) :
  uuid_from rt (String c rest)
  = bind (uuid_replace rt c)
      (fun piece => bind (uuid_from rt rest) (fun tail => ret (piece +:+ tail))).
Proof. reflexivity. Qed.

Lemma uuid_from_returns (rt : Runtime) (template : string) (w : World) :
  exists uuid draws,
    returns (uuid_from rt template) w uuid (advance w 0 draws)
    /\ (forall rest, template = String "x" rest ->
        exists h t, uuid = String h t /\ h <> "_"%char).
Proof.
  revert w. induction template as [| c rest IH]; intros w.
  - exists EmptyString, 0%nat. split; [| discriminate].
    change (uuid_from rt EmptyString) with (@ret string EmptyString).
    unfold returns, ret. rewrite advance_0. reflexivity.
  - destruct (uuid_replace_returns rt c w) as (piece & d1 & Hpiece & Hhead).
    destruct (IH (advance w 0 d1)) as (tail & d2 & Htail & _).
    exists (piece +:+ tail), (d2 + d1)%nat. split.
    + rewrite uuid_from_cons.
      eapply returns_bind; [exact Hpiece |].
      eapply returns_bind; [exact Htail |].
      rewrite advance_advance. apply returns_ret.
    + intros rest' Heq. injection Heq as -> _.
      destruct (Hhead eq_refl) as (h & t & -> & Hh).
      exists h, (t +:+ tail). split; [apply append_cons | exact Hh].
Qed.

Lemma generateUUID_returns (rt : Runtime) (w : World) :
  exists uuid draws,
    returns (generateUUID rt) w uuid (advance w 0 draws)
    /\ uuid <> "__proto__" /\ uuid <> "".
Proof.
  destruct (uuid_from_returns rt uuid_template w) as (uuid & draws & Hrun & Hhead).
  exists uuid, draws. split; [exact Hrun |].
  destruct (Hhead _ eq_refl) as (h & t & -> & Hh).
  split; [| discriminate].
  intros Heq. injection Heq as Hc _. apply Hh, Hc.
Qed.

Lemma bind_returns {A B : Type} (m : M A) (k : A -> M B) w a w' :
  returns m w a w' -> bind m k w = k a w'.
Proof. unfold returns, bind. intros ->. reflexivity. Qed.

Lemma bind_throws {A B : Type} (m : M A) (k : A -> M B) w e w' :
  throws m w e w' -> bind m k w = (inl e, w').
Proof. unfold throws, bind. intros ->. reflexivity. Qed.

(** ** The steps of a method *)

Lemma Date_now_returns (rt : Runtime) (w : World) :
  returns (Date_now rt) w (clock rt (clock_reads w)) (advance w 1 0).
Proof. reflexivity. Qed.

Lemma new_Date_toISOString_returns (rt : Runtime) (w : World) :
  returns (new_Date_toISOString rt) w
    (toISOString rt (clock rt (clock_reads w))) (advance w 1 0).
Proof. reflexivity. Qed.

Lemma random_returns (rt : Runtime) (w : World) :
  returns (random rt) w (Math_random rt (random_draws w)) (advance w 0 1).
Proof. reflexivity. Qed.

Lemma getSession_eq (sessionId : string) (w : World) :
  getSession sessionId w
  = (inr match js_get (parse_or_empty (SESSIONS (storage w))) sessionId with
         | Own o => Some (Stored o)
         | Inherited name => Some (PrototypeMember name)
         | Undefined => None
         end, w).
Proof. reflexivity. Qed.

Lemma storeSession_returns (session : SessionObject) (w : World) :
  returns (storeSession session) w tt
    (with_storage w
       {| SESSIONS := Some (js_set (parse_or_empty (SESSIONS (storage w)))
                              (session_key session) session);
          CURRENT_SESSION := CURRENT_SESSION (storage w);
          TEACHING_DIRECTIVES := TEACHING_DIRECTIVES (storage w) |}).
Proof. reflexivity. Qed.

Lemma setCurrentSession_returns (sessionId : string) (w : World) :
  returns (setCurrentSession sessionId) w tt
    (with_storage w
       {| SESSIONS := SESSIONS (storage w);
          CURRENT_SESSION := Some sessionId;
          TEACHING_DIRECTIVES := TEACHING_DIRECTIVES (storage w) |}).
Proof. reflexivity. Qed.

Lemma storeTeachingDirectives_returns (sessionId : string)
    (directives : list TeachingDirective) (w : World) :
  returns (storeTeachingDirectives sessionId directives) w tt
    (with_storage w
       {| SESSIONS := SESSIONS (storage w);
          CURRENT_SESSION := CURRENT_SESSION (storage w);
          TEACHING_DIRECTIVES :=
            Some (js_set (parse_or_empty (TEACHING_DIRECTIVES (storage w)))
                    sessionId directives) |}).
Proof. reflexivity. Qed.

(** ** [createSession] *)

(** C1. For every phrase other than the activation phrase,
    [createSession] throws the invalid-consent error and leaves the world
    as it was: the sessions item, the current-session item and the
    directives item are unchanged. *)
Theorem createSession_rejects_other_phrases
    (rt : Runtime) (P : string) (deviceFingerprint : option string) (w : World) :
  P <> ACTIVATION_PHRASE ->
  createSession rt P deviceFingerprint w = (inl InvalidConsent, w)
  /\ error_message InvalidConsent
     = "Invalid activation phrase. The spiral remembers only truth.".
Proof.
  intros HP. split; [| reflexivity].
  unfold createSession.
  destruct (String.eqb_spec P ACTIVATION_PHRASE) as [Heq | _]; [contradiction |].
  reflexivity.
Qed.

Lemma createSession_rejects_other_phrases_witness :
  "I consent to bloom." <> ACTIVATION_PHRASE
  /\ createSession sample_runtime "I consent to bloom." None initial_world
     = (inl InvalidConsent, initial_world).
Proof.
  split; [discriminate |].
  apply (createSession_rejects_other_phrases sample_runtime "I consent to bloom."
           None initial_world).
  discriminate.
Defined.


(** The world after a successful [createSession], and the session in it. *)
Lemma createSession_accepts (rt : Runtime) (fp : option string) (w : World) :
  exists (r : CreateSessionResult) (s : LimnusSession) (b : MemoryBlock) (draws : nat),
    createSession rt ACTIVATION_PHRASE fp w
    = (inr r,
       {| storage :=
            {| SESSIONS :=
                 Some (<[sessionId r := Session s]> (parse_or_empty (SESSIONS (storage w))));
               CURRENT_SESSION := Some (sessionId r);
               TEACHING_DIRECTIVES := TEACHING_DIRECTIVES (storage w) |};
          clock_reads := S (clock_reads w);
          random_draws := S (draws + random_draws w) |})
    /\ sessionId r <> "__proto__"
    /\ sessionId r <> ""
    /\ id s = sessionId r
    /\ memoryChain s = [b]
    /\ previousHash b = "0"
    /\ signature b = "genesis"
    /\ data_type (data b) = mb_interaction
    /\ significance (data b) = 1.0%float
    /\ phase s = ACTIVE
    /\ metrics s = initialMetrics
    /\ cs_metrics r = initialMetrics
    /\ cs_phase r = ACTIVE
    /\ teachingDirectives s = []
    /\ consentTimestamp s = Some (toISOString rt (clock rt (clock_reads w)))
    /\ lastActivity s = toISOString rt (clock rt (clock_reads w)).
Proof.
  destruct (generateUUID_returns rt w) as (uuid & draws & Huuid & Hproto & Hempty).
  unfold createSession. rewrite String.eqb_refl.
  change (negb true) with false. cbv iota.
  rewrite (bind_returns _ _ _ _ _ Huuid).
  rewrite (bind_returns _ _ _ _ _ (new_Date_toISOString_returns rt _)).
  cbv zeta.
  rewrite (bind_returns _ _ _ _ _ (storeSession_returns _ _)).
  rewrite (bind_returns _ _ _ _ _ (setCurrentSession_returns _ _)).
  rewrite (bind_returns _ _ _ _ _ (random_returns _ _)).
  unfold ret.
  cbv [with_storage advance storage clock_reads random_draws SESSIONS
       CURRENT_SESSION TEACHING_DIRECTIVES session_key id Nat.add].
  rewrite js_set_insert by exact Hproto.
  eexists (Build_CreateSessionResult uuid _ _ _),
    (Build_LimnusSession _ _ _ _ _ _ _ _ _ _), (Build_MemoryBlock _ _ _ _ _ _), draws.
  split; [reflexivity |].
  cbv [sessionId id memoryChain previousHash signature data_type data significance
       phase metrics cs_metrics cs_phase teachingDirectives consentTimestamp
       lastActivity].
  repeat split; try reflexivity; assumption.
Qed.

(** C6. With the activation phrase, [createSession] returns, and the
    session it has persisted under the returned id (the one [getSession]
    reads back, and the current session) has a memory chain of exactly one
    block, with [previousHash] ["0"], [signature] ["genesis"], data type
    [interaction] and significance 1.0. *)
Theorem createSession_genesis_block
    (rt : Runtime) (deviceFingerprint : option string) (w : World) :
  exists (r : CreateSessionResult) (w' : World) (s : LimnusSession) (b : MemoryBlock),
    createSession rt ACTIVATION_PHRASE deviceFingerprint w = (inr r, w')
    /\ getSession (sessionId r) w' = (inr (Some (Stored (Session s))), w')
    /\ CURRENT_SESSION (storage w') = Some (sessionId r)
    /\ id s = sessionId r
    /\ memoryChain s = [b]
    /\ length (memoryChain s) = 1%nat
    /\ previousHash b = "0"
    /\ signature b = "genesis"
    /\ data_type (data b) = mb_interaction
    /\ significance (data b) = 1.0%float.
Proof.
  destruct (createSession_accepts rt deviceFingerprint w)
    as (r & s & b & draws & Hrun & Hproto & _ & Hid & Hchain & Hprev & Hsig & Hty & Hsg & _).
  eexists r, _, s, b. split; [exact Hrun |].
  split.
  - rewrite getSession_eq. cbv [storage SESSIONS parse_or_empty].
    unfold js_get. rewrite lookup_insert_eq. reflexivity.
  - rewrite Hchain. cbv [storage CURRENT_SESSION]. auto 10.
Qed.

(** ** Objects with enumerable properties *)

Section ObjFacts.
Context {K : Type} `{EqDecision K} {V : Type}.
Implicit Types (o base src : list (K * V)) (k : K) (v : V).

Lemma obj_get_set_eq o k v : obj_get (obj_set o k v) k = Some v.
Proof.
  induction o as [| [k' v'] o IH]; simpl.
  - rewrite decide_True by reflexivity. reflexivity.
  - destruct (decide (k' = k)) as [-> | Hne]; simpl.
    + rewrite decide_True by reflexivity. reflexivity.
    + rewrite decide_False by exact Hne. exact IH.
Qed.

Lemma obj_get_set_ne o k k' v :
  k <> k' -> obj_get (obj_set o k v) k' = obj_get o k'.
Proof.
  intros Hne. induction o as [| [k0 v0] o IH]; simpl.
  - rewrite decide_False by exact Hne. reflexivity.
  - destruct (decide (k0 = k)) as [-> | Hne0]; simpl.
    + rewrite !decide_False by exact Hne. reflexivity.
    + destruct (decide (k0 = k')); [reflexivity | exact IH].
Qed.

Lemma obj_get_None o k : k ∉ Object_keys o -> obj_get o k = None.
Proof.
  induction o as [| [k' v'] o IH]; simpl; [reflexivity |].
  intros Hnotin. apply not_elem_of_cons in Hnotin as [Hne Hnotin].
  rewrite decide_False by (intros ->; apply Hne; reflexivity).
  apply IH, Hnotin.
Qed.


Lemma obj_set_keys o k v :
  Object_keys (obj_set o k v)
  = if decide (k ∈ Object_keys o) then Object_keys o else Object_keys o ++ [k].
Proof.
  unfold Object_keys.
  induction o as [| [k' v'] o IH].
  - rewrite decide_False by apply not_elem_of_nil. reflexivity.
  - cbn [obj_set]. destruct (decide (k' = k)) as [-> | Hne]; cbn [List.map fst].
    + rewrite decide_True by apply list_elem_of_here. reflexivity.
    + rewrite IH.
      destruct (decide (k ∈ List.map fst o)) as [Hin | Hnotin].
      * rewrite decide_True by (apply list_elem_of_further, Hin). reflexivity.
      * rewrite decide_False; [reflexivity |].
        intros Hin. apply elem_of_cons in Hin as [-> | Hin]; [apply Hne; reflexivity |].
        apply Hnotin, Hin.
Qed.

Lemma obj_set_new o k v :
  k ∉ Object_keys o -> obj_set o k v = o ++ [(k, v)].
Proof.
  induction o as [| [k' v'] o IH]; simpl; [reflexivity |].
  intros Hnotin. apply not_elem_of_cons in Hnotin as [Hne Hnotin].
  rewrite decide_False by (intros ->; apply Hne; reflexivity).
  rewrite IH by exact Hnotin. reflexivity.
Qed.

Lemma obj_set_NoDup o k v :
  NoDup (Object_keys o) -> NoDup (Object_keys (obj_set o k v)).
Proof.
  intros Hnd. rewrite obj_set_keys.
  destruct (decide (k ∈ Object_keys o)) as [Hin | Hnotin]; [exact Hnd |].
  apply NoDup_app. split; [exact Hnd |]. split.
  - intros x Hx Hx'. apply list_elem_of_singleton in Hx' as ->. apply Hnotin, Hx.
  - apply NoDup_singleton.
Qed.

Lemma obj_spread_NoDup base src :
  NoDup (Object_keys base) -> NoDup (Object_keys (obj_spread base src)).
Proof.
  revert base. induction src as [| [k v] src IH]; intros base Hnd; [exact Hnd |].
  apply (IH (obj_set base k v)), obj_set_NoDup, Hnd.
Qed.

(** Reading a property of [{...base, ...src}]: the property of [src]
    when it has one, else the property of [base]. *)
Lemma obj_get_spread base src k :
  NoDup (Object_keys src) ->
  obj_get (obj_spread base src) k
  = match obj_get src k with
    | Some v => Some v
    | None => obj_get base k
    end.
Proof.
  revert base. induction src as [| [k0 v0] src IH]; intros base Hnd; [reflexivity |].
  apply NoDup_cons in Hnd as [Hnotin Hnd].
  change (obj_spread base ((k0, v0) :: src)) with (obj_spread (obj_set base k0 v0) src).
  rewrite IH by exact Hnd. simpl.
  destruct (decide (k0 = k)) as [-> | Hne].
  - rewrite (obj_get_None src k) by exact Hnotin. apply obj_get_set_eq.
  - rewrite obj_get_set_ne by exact Hne. reflexivity.
Qed.

(** Copying an object keeps it as it is. *)
Lemma obj_spread_app base src :
  NoDup (Object_keys (base ++ src)) -> obj_spread base src = base ++ src.
Proof.
  revert base. induction src as [| [k v] src IH]; intros base Hnd.
  - rewrite app_nil_r. reflexivity.
  - change (obj_spread base ((k, v) :: src)) with (obj_spread (obj_set base k v) src).
    assert (Hnotin : k ∉ Object_keys base).
    { unfold Object_keys in *. rewrite map_app in Hnd.
      apply NoDup_app in Hnd as (_ & Hdisj & _).
      intros Hin. apply (Hdisj k Hin). apply list_elem_of_here. }
    rewrite obj_set_new by exact Hnotin.
    rewrite IH; rewrite <- app_assoc; [reflexivity | exact Hnd].
Qed.

Lemma obj_spread_copy src : NoDup (Object_keys src) -> obj_spread [] src = src.
Proof. intros Hnd. apply (obj_spread_app [] src), Hnd. Qed.

End ObjFacts.

(** ** The update record of [updateMetrics] *)

Lemma defined_entries_cons (k : MetricKey) (ov : option float)
    (es : list (MetricKey * option float)) :
  defined_entries ((k, ov) :: es)
  = match ov with
    | Some v => (k, v) :: defined_entries es
    | None => defined_entries es
    end.
Proof. destruct ov; reflexivity. Qed.

Lemma defined_entries_keys (es : list (MetricKey * option float)) (k : MetricKey) :
  k ∈ Object_keys (defined_entries es) -> k ∈ Object_keys es.
Proof.
  unfold Object_keys. induction es as [| [k' ov] es IH]; [intros H; exact H |].
  rewrite defined_entries_cons. cbn [List.map fst].
  destruct ov as [v |]; cbn [List.map fst]; intros Hin.
  - apply elem_of_cons in Hin as [-> | Hin];
      [apply list_elem_of_here | apply list_elem_of_further, IH, Hin].
  - apply list_elem_of_further, IH, Hin.
Qed.

Lemma defined_entries_NoDup (es : list (MetricKey * option float)) :
  NoDup (Object_keys es) -> NoDup (Object_keys (defined_entries es)).
Proof.
  induction es as [| [k ov] es IH]; [intros H; exact H |].
  rewrite defined_entries_cons. intros Hnd.
  apply NoDup_cons in Hnd as [Hnotin Hnd].
  destruct ov as [v |]; [| apply IH, Hnd].
  apply NoDup_cons. split; [| apply IH, Hnd].
  intros Hin. apply Hnotin, defined_entries_keys, Hin.
Qed.

(** A property of the cleaned record is a property of the record that
    holds a value. *)
Lemma obj_get_defined_entries (es : list (MetricKey * option float)) (k : MetricKey) :
  NoDup (Object_keys es) ->
  obj_get (defined_entries es) k
  = match obj_get es k with
    | Some (Some v) => Some v
    | _ => None
    end.
Proof.
  induction es as [| [k' ov] es IH]; [reflexivity |].
  intros Hnd. apply NoDup_cons in Hnd as [Hnotin Hnd].
  rewrite defined_entries_cons. cbn [obj_get].
  destruct (decide (k' = k)) as [-> | Hne].
  - destruct ov as [v |].
    + cbn [obj_get]. rewrite decide_True by reflexivity. reflexivity.
    + apply obj_get_None. intros Hin. apply Hnotin, defined_entries_keys, Hin.
  - destruct ov as [v |]; [| apply IH, Hnd].
    cbn [obj_get]. rewrite decide_False by exact Hne. apply IH, Hnd.
Qed.

Lemma computeUpdatedMetrics_NoDup (rt : Runtime) (metrics : PartialMetrics)
    (context : option UpdateContext) :
  NoDup (Object_keys (computeUpdatedMetrics rt metrics context)).
Proof.
  unfold computeUpdatedMetrics. cbv zeta.
  do 5 apply obj_set_NoDup. apply obj_spread_NoDup. apply NoDup_nil_2.
Qed.

Lemma computeUpdatedMetrics_get (rt : Runtime) (metrics : PartialMetrics)
    (context : option UpdateContext) (k : MetricKey) :
  obj_get (computeUpdatedMetrics rt metrics context) k
  = match computed_field rt context k with
    | Some c => Some c
    | None => obj_get (obj_spread [] metrics) k
    end.
Proof.
  unfold computeUpdatedMetrics. cbv zeta.
  destruct k; cbn [computed_field];
    repeat first [ rewrite obj_get_set_eq | rewrite obj_get_set_ne by discriminate ];
    reflexivity.
Qed.

Lemma cleanMetrics_defined (rt : Runtime) (metrics : PartialMetrics)
    (context : option UpdateContext) :
  cleanMetrics (computeUpdatedMetrics rt metrics context)
  = defined_entries (computeUpdatedMetrics rt metrics context).
Proof.
  unfold cleanMetrics, Object_fromEntries, Object_entries.
  apply obj_spread_copy, defined_entries_NoDup, computeUpdatedMetrics_NoDup.
Qed.

Lemma cleanMetrics_NoDup (rt : Runtime) (metrics : PartialMetrics)
    (context : option UpdateContext) :
  NoDup (Object_keys (cleanMetrics (computeUpdatedMetrics rt metrics context))).
Proof.
  rewrite cleanMetrics_defined.
  apply defined_entries_NoDup, computeUpdatedMetrics_NoDup.
Qed.

(** What the cleaned record holds under each key. *)
Lemma cleanMetrics_get (rt : Runtime) (metrics : PartialMetrics)
    (context : option UpdateContext) (k : MetricKey) :
  obj_get (cleanMetrics (computeUpdatedMetrics rt metrics context)) k
  = match computed_field rt context k with
    | Some c => c
    | None =>
        match obj_get (obj_spread [] metrics) k with
        | Some (Some v) => Some v
        | _ => None
        end
    end.
Proof.
  rewrite cleanMetrics_defined.
  rewrite obj_get_defined_entries by apply computeUpdatedMetrics_NoDup.
  rewrite computeUpdatedMetrics_get.
  destruct (computed_field rt context k) as [[v |] |]; reflexivity.
Qed.

Lemma cleanMetrics_nonempty (rt : Runtime) (metrics : PartialMetrics)
    (context : option UpdateContext) :
  (0 < length (Object_values (cleanMetrics (computeUpdatedMetrics rt metrics context))))%nat.
Proof.
  pose proof (cleanMetrics_get rt metrics context phaseAlignment) as Hget.
  cbn [computed_field] in Hget.
  destruct (cleanMetrics (computeUpdatedMetrics rt metrics context)) as [| kv l];
    [discriminate Hget |].
  unfold Object_values. cbn [List.map length]. lia.
Qed.

(** [updateMetrics] on a value that was read: it always completes. *)
Lemma updateMetrics_found (rt : Runtime) (sessionId : string)
    (metrics : PartialMetrics) (context : option UpdateContext) (w : World)
    (session : SessionValue) :
  getSession sessionId w = (inr (Some session), w) ->
  updateMetrics rt sessionId metrics context w
  = (inr {| success := true;
            updatedMetrics := cleanMetrics (computeUpdatedMetrics rt metrics context);
            um_timestamp := toISOString rt (clock rt (S (clock_reads w)));
            coherenceScore :=
              calculateOverallCoherence
                (cleanMetrics (computeUpdatedMetrics rt metrics context)) |},
     {| storage :=
          {| SESSIONS :=
               Some (js_set (parse_or_empty (SESSIONS (storage w)))
                       (session_key
                          (updated_session session
                             (obj_spread (obj_spread [] (metrics_of session))
                                (cleanMetrics (computeUpdatedMetrics rt metrics context)))
                             (toISOString rt (clock rt (clock_reads w)))))
                       (updated_session session
                          (obj_spread (obj_spread [] (metrics_of session))
                             (cleanMetrics (computeUpdatedMetrics rt metrics context)))
                          (toISOString rt (clock rt (clock_reads w)))));
             CURRENT_SESSION := CURRENT_SESSION (storage w);
             TEACHING_DIRECTIVES := TEACHING_DIRECTIVES (storage w) |};
        clock_reads := S (S (clock_reads w));
        random_draws := random_draws w |}).
Proof.
  intros Hget. unfold updateMetrics.
  rewrite (bind_returns _ _ _ _ _ Hget). cbv zeta.
  rewrite (bind_returns _ _ _ _ _ (new_Date_toISOString_returns rt _)).
  rewrite (bind_returns _ _ _ _ _ (storeSession_returns _ _)).
  rewrite (bind_returns _ _ _ _ _ (new_Date_toISOString_returns rt _)).
  reflexivity.
Qed.

Lemma updateMetrics_not_found (rt : Runtime) (sessionId : string)
    (metrics : PartialMetrics) (context : option UpdateContext) (w : World) :
  getSession sessionId w = (inr None, w) ->
  updateMetrics rt sessionId metrics context w = (inl SessionNotFound, w).
Proof.
  intros Hget. unfold updateMetrics.
  rewrite (bind_returns _ _ _ _ _ Hget). reflexivity.
Qed.

(** ** [updateMetrics] on an id that names no stored session *)

Lemma getSession_inherited (name : string) (w : World) :
  parse_or_empty (SESSIONS (storage w)) !! name = None ->
  name ∈ Object_prototype_names ->
  getSession name w = (inr (Some (PrototypeMember name)), w).
Proof.
  intros Hnone Hin. rewrite getSession_eq. unfold js_get. rewrite Hnone.
  rewrite bool_decide_eq_true_2 by exact Hin. reflexivity.
Qed.

Lemma getSession_undefined (sessionId : string) (w : World) :
  parse_or_empty (SESSIONS (storage w)) !! sessionId = None ->
  sessionId ∉ Object_prototype_names ->
  getSession sessionId w = (inr None, w).
Proof.
  intros Hnone Hnotin. rewrite getSession_eq. unfold js_get. rewrite Hnone.
  rewrite bool_decide_eq_false_2 by exact Hnotin. reflexivity.
Qed.

Lemma getSession_own (sessionId : string) (w : World) (o : SessionObject) :
  parse_or_empty (SESSIONS (storage w)) !! sessionId = Some o ->
  getSession sessionId w = (inr (Some (Stored o)), w).
Proof.
  intros Hsome. rewrite getSession_eq. unfold js_get. rewrite Hsome. reflexivity.
Qed.

(** C2, at the id ["constructor"] on a store that holds no session:
    [sessions["constructor"]] is the inherited member of that name, which
    is truthy, so [updateMetrics] throws nothing, reports success, and
    writes a record made of [metrics] and [lastActivity] under the key
    ["undefined"]. *)
Theorem updateMetrics_inherited_name_is_found
    (rt : Runtime) (metrics : PartialMetrics) (context : option UpdateContext) :
  exists (r : UpdateMetricsResult),
    parse_or_empty (SESSIONS (storage initial_world)) !! "constructor" = None
    /\ updateMetrics rt "constructor" metrics context initial_world
       = (inr r,
          {| storage :=
               {| SESSIONS :=
                    Some (<["undefined" :=
                              Stray (updatedMetrics r) (toISOString rt (clock rt 0%nat))]> ∅);
                  CURRENT_SESSION := None;
                  TEACHING_DIRECTIVES := None |};
             clock_reads := 2;
             random_draws := 0 |})
    /\ success r = true.
Proof.
  eexists (Build_UpdateMetricsResult _ _ _ _). split; [apply lookup_empty |].
  rewrite (updateMetrics_found rt "constructor" metrics context initial_world
             (PrototypeMember "constructor")).
  - cbv [updated_session session_key metrics_of initial_world storage clock_reads
         random_draws SESSIONS CURRENT_SESSION TEACHING_DIRECTIVES empty_storage
         parse_or_empty success updatedMetrics].
    rewrite js_set_insert by discriminate.
    change (obj_spread [] []) with (@nil (MetricKey * float)).
    rewrite (obj_spread_copy (cleanMetrics (computeUpdatedMetrics rt metrics context)))
      by apply cleanMetrics_NoDup.
    split; reflexivity.
  - apply getSession_inherited; [reflexivity |].
    unfold Object_prototype_names. apply list_elem_of_here.
Qed.

(** An id that is neither a stored key nor a name every object inherits
    is reported as not found, and nothing is written. *)
Theorem updateMetrics_unknown_id
    (rt : Runtime) (sessionId : string) (metrics : PartialMetrics)
    (context : option UpdateContext) (w : World) :
  parse_or_empty (SESSIONS (storage w)) !! sessionId = None ->
  sessionId ∉ Object_prototype_names ->
  updateMetrics rt sessionId metrics context w = (inl SessionNotFound, w)
  /\ error_message SessionNotFound = "Session not found".
Proof.
  intros Hnone Hnotin. split; [| reflexivity].
  apply updateMetrics_not_found, getSession_undefined; assumption.
Qed.

Lemma updateMetrics_unknown_id_witness :
  parse_or_empty (SESSIONS (storage sample_world)) !! "s2" = None
  /\ ("s2" ∉ Object_prototype_names)
  /\ updateMetrics sample_runtime "s2" [] None sample_world
     = (inl SessionNotFound, sample_world).
Proof.
  assert (H1 : parse_or_empty (SESSIONS (storage sample_world)) !! "s2" = None)
    by (vm_compute; reflexivity).
  assert (H2 : "s2" ∉ Object_prototype_names)
    by (apply (bool_decide_unpack _); vm_compute; exact I).
  split; [exact H1 |]. split; [exact H2 |].
  apply (updateMetrics_unknown_id sample_runtime "s2" [] None sample_world H1 H2).
Defined.

(** ** [updateMetrics] on a stored session *)

(** C3. On a stored session [updateMetrics] succeeds, and the
    [coherenceScore] it returns is the arithmetic mean of the values of
    this update's cleaned record, the record it returns as
    [updatedMetrics]: the caller's properties merged with the computed
    ones, those holding [undefined] dropped.  That record is never empty,
    and neither it nor the score depends on the metrics the session
    holds. *)
Theorem updateMetrics_coherence_is_update_mean
    (rt : Runtime) (sessionId : string) (metrics : PartialMetrics)
    (context : option UpdateContext) (w : World) (s : LimnusSession) :
  parse_or_empty (SESSIONS (storage w)) !! sessionId = Some (Session s) ->
  exists (r : UpdateMetricsResult) (w' : World),
    updateMetrics rt sessionId metrics context w = (inr r, w')
    /\ success r = true
    /\ updatedMetrics r = cleanMetrics (computeUpdatedMetrics rt metrics context)
    /\ (0 < length (Object_values (updatedMetrics r)))%nat
    /\ coherenceScore r
       = (sum_floats (Object_values (updatedMetrics r))
          / Number.of_nat (length (Object_values (updatedMetrics r))))%float.
Proof.
  intros Hstored.
  rewrite (updateMetrics_found rt sessionId metrics context w (Stored (Session s)))
    by (apply getSession_own, Hstored).
  eexists (Build_UpdateMetricsResult _ _ _ _), _. split; [reflexivity |].
  cbv [success updatedMetrics coherenceScore].
  split; [reflexivity |]. split; [reflexivity |].
  pose proof (cleanMetrics_nonempty rt metrics context) as Hlen.
  split; [exact Hlen |].
  unfold calculateOverallCoherence. cbv zeta.
  destruct (Object_values (cleanMetrics (computeUpdatedMetrics rt metrics context)))
    as [| v vs]; [cbn [length] in Hlen; lia | reflexivity].
Qed.

Lemma updateMetrics_coherence_is_update_mean_witness :
  parse_or_empty (SESSIONS (storage sample_world)) !! "s1" = Some (Session sample_session)
  /\ exists (r : UpdateMetricsResult) (w' : World),
       updateMetrics sample_runtime "s1" [(neuralComplexity, Some 0.75%float)]
         (Some sample_context) sample_world = (inr r, w')
       /\ success r = true
       /\ updatedMetrics r
          = cleanMetrics (computeUpdatedMetrics sample_runtime
                            [(neuralComplexity, Some 0.75%float)] (Some sample_context))
       /\ (0 < length (Object_values (updatedMetrics r)))%nat
       /\ coherenceScore r
          = (sum_floats (Object_values (updatedMetrics r))
             / Number.of_nat (length (Object_values (updatedMetrics r))))%float.
Proof.
  assert (H : parse_or_empty (SESSIONS (storage sample_world)) !! "s1"
              = Some (Session sample_session)) by (vm_compute; reflexivity).
  split; [exact H |].
  exact (updateMetrics_coherence_is_update_mean sample_runtime "s1"
           [(neuralComplexity, Some 0.75%float)] (Some sample_context)
           sample_world sample_session H).
Defined.

(** C7. On a session stored under its id, [updateMetrics] succeeds and
    replaces the stored session by one that differs from it in [metrics]
    and [lastActivity] only: the eight other fields are the same, a metric
    the cleaned update does not hold keeps its value, and a metric it holds
    takes the update's value.  The other sessions, the current-session item
    and the directives item are as before. *)
Theorem updateMetrics_frame
    (rt : Runtime) (sessionId : string) (update : PartialMetrics)
    (context : option UpdateContext) (w : World) (s : LimnusSession) :
  parse_or_empty (SESSIONS (storage w)) !! sessionId = Some (Session s) ->
  id s = sessionId ->
  NoDup (Object_keys (metrics s)) ->
  exists (r : UpdateMetricsResult) (w' : World) (s' : LimnusSession),
    updateMetrics rt sessionId update context w = (inr r, w')
    /\ SESSIONS (storage w')
       = Some (<[sessionId := Session s']> (parse_or_empty (SESSIONS (storage w))))
    /\ CURRENT_SESSION (storage w') = CURRENT_SESSION (storage w)
    /\ TEACHING_DIRECTIVES (storage w') = TEACHING_DIRECTIVES (storage w)
    /\ id s' = id s
    /\ userId s' = userId s
    /\ phase s' = phase s
    /\ consentTimestamp s' = consentTimestamp s
    /\ memoryChain s' = memoryChain s
    /\ coherenceTarget s' = coherenceTarget s
    /\ spiralDepth s' = spiralDepth s
    /\ teachingDirectives s' = teachingDirectives s
    /\ lastActivity s' = toISOString rt (clock rt (clock_reads w))
    /\ (forall k : MetricKey,
          obj_get (updatedMetrics r) k = None ->
          obj_get (metrics s') k = obj_get (metrics s) k)
    /\ (forall (k : MetricKey) (v : float),
          obj_get (updatedMetrics r) k = Some v ->
          obj_get (metrics s') k = Some v).
Proof.
  intros Hstored Hid Hnd.
  rewrite (updateMetrics_found rt sessionId update context w (Stored (Session s)))
    by (apply getSession_own, Hstored).
  cbv [updated_session session_key metrics_of id].
  fold (id s). rewrite Hid.
  unfold js_set. rewrite Hstored.
  eexists (Build_UpdateMetricsResult _ _ _ _), _, (Build_LimnusSession _ _ _ _ _ _ _ _ _ _).
  split; [reflexivity |].
  cbv [storage SESSIONS CURRENT_SESSION TEACHING_DIRECTIVES id userId phase
       consentTimestamp memoryChain coherenceTarget spiralDepth teachingDirectives
       lastActivity metrics updatedMetrics].
  fold (metrics s).
  repeat (split; [reflexivity |]).
  rewrite (obj_spread_copy (metrics s)) by exact Hnd.
  split.
  - intros k Hk. rewrite obj_get_spread by apply cleanMetrics_NoDup.
    rewrite Hk. reflexivity.
  - intros k v Hk. rewrite obj_get_spread by apply cleanMetrics_NoDup.
    rewrite Hk. reflexivity.
Qed.

Lemma updateMetrics_frame_witness :
  parse_or_empty (SESSIONS (storage sample_world)) !! "s1" = Some (Session sample_session)
  /\ id sample_session = "s1"
  /\ NoDup (Object_keys (metrics sample_session))
  /\ exists (r : UpdateMetricsResult) (w' : World) (s' : LimnusSession),
       updateMetrics sample_runtime "s1" [(neuralComplexity, Some 0.75%float)]
         (Some sample_context) sample_world = (inr r, w')
       /\ SESSIONS (storage w')
          = Some (<["s1" := Session s']> (parse_or_empty (SESSIONS (storage sample_world))))
       /\ CURRENT_SESSION (storage w') = CURRENT_SESSION (storage sample_world)
       /\ TEACHING_DIRECTIVES (storage w') = TEACHING_DIRECTIVES (storage sample_world)
       /\ id s' = id sample_session
       /\ userId s' = userId sample_session
       /\ phase s' = phase sample_session
       /\ consentTimestamp s' = consentTimestamp sample_session
       /\ memoryChain s' = memoryChain sample_session
       /\ coherenceTarget s' = coherenceTarget sample_session
       /\ spiralDepth s' = spiralDepth sample_session
       /\ teachingDirectives s' = teachingDirectives sample_session
       /\ lastActivity s'
          = toISOString sample_runtime (clock sample_runtime (clock_reads sample_world))
       /\ (forall k : MetricKey,
             obj_get (updatedMetrics r) k = None ->
             obj_get (metrics s') k = obj_get (metrics sample_session) k)
       /\ (forall (k : MetricKey) (v : float),
             obj_get (updatedMetrics r) k = Some v ->
             obj_get (metrics s') k = Some v).
Proof.
  assert (H1 : parse_or_empty (SESSIONS (storage sample_world)) !! "s1"
               = Some (Session sample_session)) by (vm_compute; reflexivity).
  assert (H2 : id sample_session = "s1") by reflexivity.
  assert (H3 : NoDup (Object_keys (metrics sample_session)))
    by (apply (bool_decide_unpack _); vm_compute; exact I).
  split; [exact H1 |]. split; [exact H2 |]. split; [exact H3 |].
  exact (updateMetrics_frame sample_runtime "s1" [(neuralComplexity, Some 0.75%float)]
           (Some sample_context) sample_world sample_session H1 H2 H3).
Defined.

(** ** The reflection engine always completes *)

Lemma goldenIndex_of_lt (i n : nat) : (0 < n)%nat -> (goldenIndex_of i n < n)%nat.
Proof.
  intros Hn. unfold goldenIndex_of.
  pose proof (Z.mod_pos_bound
                (Number.floorZ (Number.of_nat i * GOLDEN_RATIO)%float) (Z.of_nat n)) as Hb.
  lia.
Qed.

(** ** The stable sort by confidence *)

Lemma sort_insert_Permutation (a : TeachingDirective) (sorted : list TeachingDirective) :
  sort_insert a sorted ≡ₚ a :: sorted.
Proof.
  induction sorted as [| b rest IH]; [reflexivity |].
  cbn [sort_insert]. destruct (0 <? by_confidence a b)%float; [| reflexivity].
  rewrite IH. apply Permutation_swap.
Qed.

Lemma sort_by_confidence_Permutation (directives : list TeachingDirective) :
  sort_by_confidence directives ≡ₚ directives.
Proof.
  unfold sort_by_confidence.
  induction directives as [| a rest IH]; [reflexivity |].
  cbn [fold_right]. rewrite sort_insert_Permutation, IH. reflexivity.
Qed.

(** [scaffoldReflection] once the directives are extracted. *)
Lemma scaffoldReflection_eq (rt : Runtime) (sessionId : string)
    (interactions : list Interaction) (depth : ReflectionDepth) (w w1 : World)
    (directives : list TeachingDirective) :
  extractTeachingDirectives rt interactions depth w = (inr directives, w1) ->
  scaffoldReflection rt sessionId interactions depth w
  = (inr {| rs_sessionId := sessionId;
            rs_teachingDirectives := directives;
            emergentPatterns := calculateEmergentPatterns rt interactions directives;
            nextEvolutionPath :=
              generateEvolutionPath
                (calculateEmergentPatterns rt interactions directives) directives;
            rs_timestamp := clock rt (clock_reads w1) |},
     {| storage :=
          {| SESSIONS := SESSIONS (storage w1);
             CURRENT_SESSION := CURRENT_SESSION (storage w1);
             TEACHING_DIRECTIVES :=
               Some (js_set (parse_or_empty (TEACHING_DIRECTIVES (storage w1)))
                       sessionId directives) |};
        clock_reads := S (clock_reads w1);
        random_draws := random_draws w1 |}).
Proof.
  intros Hextract. unfold scaffoldReflection.
  rewrite (bind_returns _ _ _ _ _ Hextract). cbv zeta.
  rewrite (bind_returns _ _ _ _ _ (Date_now_returns rt w1)).
  rewrite (bind_returns _ _ _ _ _ (storeTeachingDirectives_returns _ _ _)).
  reflexivity.
Qed.

(** ** Reflection on particular batches *)

(** C4, as the code has it.  At deep depth on an empty batch
    [scaffoldReflection] returns no directive and a learning velocity of 0;
    the conversational flow is [max(0, 1 - 0 / 10000)], which is 1. *)
Theorem scaffoldReflection_deep_empty_batch
    (rt : Runtime) (sessionId : string) (w : World) :
  exists (sc : ReflectionScaffold) (w' : World),
    scaffoldReflection rt sessionId [] deep w = (inr sc, w')
    /\ rs_teachingDirectives sc = []
    /\ learningVelocity (emergentPatterns sc) = 0%float
    /\ conversationalFlow (emergentPatterns sc) = 1%float.
Proof.
  rewrite (scaffoldReflection_eq rt sessionId [] deep w w [] eq_refl).
  eexists (Build_ReflectionScaffold _ _ _ _ _), _. split; [reflexivity |].
  cbv [rs_teachingDirectives emergentPatterns].
  split; [reflexivity |]. split; reflexivity.
Qed.

(** C4 as stated fails: on the empty batch at deep depth the
    conversational flow is 1, which is not 0. *)
Lemma scaffoldReflection_deep_empty_batch_flow_not_0 :
  exists (sc : ReflectionScaffold) (w' : World),
    scaffoldReflection sample_runtime "s1" [] deep sample_world = (inr sc, w')
    /\ rs_teachingDirectives sc = []
    /\ learningVelocity (emergentPatterns sc) = 0%float
    /\ conversationalFlow (emergentPatterns sc) = 1%float
    /\ (conversationalFlow (emergentPatterns sc) =? 0)%float = false.
Proof.
  rewrite (scaffoldReflection_eq sample_runtime "s1" [] deep sample_world sample_world []
             eq_refl).
  eexists (Build_ReflectionScaffold _ _ _ _ _), _. split; [reflexivity |].
  cbv [rs_teachingDirectives emergentPatterns].
  repeat split; reflexivity.
Qed.

(** C5, at a batch of two interactions whose cognitive loads are 0 and
    0.25: the code reads the first load as [0 || 0.5], that is 0.5, and
    returns a learning velocity of 0.25, where [max(0, 0 - 0.25)] is 0. *)
Theorem scaffoldReflection_zero_load_read_as_half
    (rt : Runtime) (sessionId : string) (w : World) :
  exists (sc : ReflectionScaffold) (w' : World),
    scaffoldReflection rt sessionId
      [sample_interaction "a" (Some 0%float); sample_interaction "b" (Some 0.25%float)]
      deep w = (inr sc, w')
    /\ cognitiveLoad_or_half (sample_interaction "a" (Some 0%float)) = 0.5%float
    /\ learningVelocity (emergentPatterns sc) = 0.25%float
    /\ Number.Math_max 0 (0 - 0.25) = 0%float.
Proof.
  assert (Hextract :
            extractTeachingDirectives rt
              [sample_interaction "a" (Some 0%float);
               sample_interaction "b" (Some 0.25%float)] deep w = (inr [], w))
    by reflexivity.
  rewrite (scaffoldReflection_eq rt sessionId _ deep w w [] Hextract).
  eexists (Build_ReflectionScaffold _ _ _ _ _), _. split; [reflexivity |].
  cbv [emergentPatterns].
  repeat split; reflexivity.
Qed.

(** ** Surface reflection *)

Lemma extract_loop_app (rt : Runtime) (depth : ReflectionDepth)
    (interactions : list Interaction) (l1 l2 : list Interaction) :
  forall (i : nat) (directives : list TeachingDirective) (w : World),
    extract_loop rt depth interactions i (l1 ++ l2) directives w
    = match extract_loop rt depth interactions i l1 directives w with
      | (inr directives1, w1) =>
          extract_loop rt depth interactions (length l1 + i) l2 directives1 w1
      | (inl e, w1) => (inl e, w1)
      end.
Proof.
  induction l1 as [| a l1 IH]; intros i directives w; [reflexivity |].
  cbn [app extract_loop length]. unfold bind.
  destruct (extract_turn rt depth interactions i a directives w) as [[e | ds] w1];
    [reflexivity |].
  rewrite IH. replace (length l1 + S i)%nat with (S (length l1) + i)%nat by lia.
  reflexivity.
Qed.

Lemma extract_loop_surface_quiet (rt : Runtime) (interactions rest : list Interaction) :
  Forall (fun int => JsString.includes (userInput int) "?" = false) rest ->
  forall (i : nat) (directives : list TeachingDirective) (w : World),
    extract_loop rt surface interactions i rest directives w = (inr directives, w).
Proof.
  induction 1 as [| a rest Ha _ IH]; intros i directives w; [reflexivity |].
  cbn [extract_loop]. unfold bind, extract_turn. rewrite Ha. unfold ret. apply IH.
Qed.

(** C8. When exactly one interaction of the batch has a [userInput] that
    includes ["?"], the one at index [length before], surface reflection
    returns exactly one directive: its type is [pattern], its confidence
    0.7, its emergent properties 0.6, 0.8 and 0.9, and its
    [sourceInteractions] holds the decimal index of that interaction and
    nothing else. *)
Theorem scaffoldReflection_surface_one_question
    (rt : Runtime) (sessionId : string) (before after : list Interaction)
    (question : Interaction) (w : World) :
  Forall (fun int => JsString.includes (userInput int) "?" = false) before ->
  JsString.includes (userInput question) "?" = true ->
  Forall (fun int => JsString.includes (userInput int) "?" = false) after ->
  exists (sc : ReflectionScaffold) (w' : World) (d : TeachingDirective),
    scaffoldReflection rt sessionId (before ++ question :: after) surface w = (inr sc, w')
    /\ rs_teachingDirectives sc = [d]
    /\ type d = pattern
    /\ confidence d = 0.7%float
    /\ emergentProperties d
       = {| resonance := 0.6%float; coherence := 0.8%float; applicability := 0.9%float |}
    /\ sourceInteractions d = [JsString.toString 10 (Z.of_nat (length before))]
    /\ goldenRatioAlignment d
       = Number.Math_abs
           (Math_sin rt (Number.of_nat (length before) * GOLDEN_RATIO)%float).
Proof.
  intros Hbefore Hquestion Hafter.
  eexists (Build_ReflectionScaffold _ _ _ _ _), _, (Build_TeachingDirective _ _ _ _ _ _ _).
  split.
  - apply scaffoldReflection_eq. unfold extractTeachingDirectives.
    erewrite bind_returns; [reflexivity |].
    unfold returns. rewrite extract_loop_app.
    rewrite (extract_loop_surface_quiet rt _ before Hbefore).
    cbn [extract_loop]. unfold bind at 1. unfold extract_turn at 1.
    rewrite Hquestion.
    rewrite (bind_returns _ _ _ _ _ (Date_now_returns rt w)). unfold ret at 1.
    rewrite (extract_loop_surface_quiet rt _ after Hafter).
    rewrite Nat.add_0_r. reflexivity.
  - cbv [rs_teachingDirectives type confidence emergentProperties sourceInteractions
         goldenRatioAlignment].
    repeat split; reflexivity.
Qed.

Lemma scaffoldReflection_surface_one_question_witness :
  Forall (fun int => JsString.includes (userInput int) "?" = false)
    [sample_interaction "hello" None]
  /\ JsString.includes (userInput (sample_interaction "why?" None)) "?" = true
  /\ Forall (fun int => JsString.includes (userInput int) "?" = false)
       [sample_interaction "thanks" None; sample_interaction "bye" None]
  /\ exists (sc : ReflectionScaffold) (w' : World) (d : TeachingDirective),
       scaffoldReflection sample_runtime "s1"
         ([sample_interaction "hello" None] ++ sample_interaction "why?" None
            :: [sample_interaction "thanks" None; sample_interaction "bye" None])
         surface sample_world = (inr sc, w')
       /\ rs_teachingDirectives sc = [d]
       /\ type d = pattern
       /\ confidence d = 0.7%float
       /\ emergentProperties d
          = {| resonance := 0.6%float; coherence := 0.8%float;
               applicability := 0.9%float |}
       /\ sourceInteractions d = ["1"]
       /\ goldenRatioAlignment d
          = Number.Math_abs
              (Math_sin sample_runtime (Number.of_nat 1 * GOLDEN_RATIO)%float).
Proof.
  assert (H1 : Forall (fun int => JsString.includes (userInput int) "?" = false)
                 [sample_interaction "hello" None])
    by (repeat constructor).
  assert (H2 : JsString.includes (userInput (sample_interaction "why?" None)) "?" = true)
    by reflexivity.
  assert (H3 : Forall (fun int => JsString.includes (userInput int) "?" = false)
                 [sample_interaction "thanks" None; sample_interaction "bye" None])
    by (repeat constructor).
  split; [exact H1 |]. split; [exact H2 |]. split; [exact H3 |].
  exact (scaffoldReflection_surface_one_question sample_runtime "s1" _ _ _ sample_world
           H1 H2 H3).
Defined.

(** ** Where the directives are stored *)

(** C10, at the id ["__proto__"] on a store without directives: the
    scaffold is returned with its one directive, but the assignment
    [allDirectives["__proto__"] = directives] reaches the inherited setter,
    so the stored object has no property of that name and the list is not
    stored. *)
Theorem scaffoldReflection_proto_id_stores_nothing (rt : Runtime) :
  exists (sc : ReflectionScaffold) (w' : World),
    scaffoldReflection rt "__proto__" [sample_interaction "why?" None] surface
      initial_world = (inr sc, w')
    /\ rs_sessionId sc = "__proto__"
    /\ length (rs_teachingDirectives sc) = 1%nat
    /\ TEACHING_DIRECTIVES (storage w') = Some ∅
    /\ parse_or_empty (TEACHING_DIRECTIVES (storage w')) !! "__proto__" = None.
Proof.
  eexists (Build_ReflectionScaffold _ _ _ _ _), _. split.
  - apply scaffoldReflection_eq. reflexivity.
  - cbv [rs_sessionId rs_teachingDirectives storage TEACHING_DIRECTIVES].
    split; [reflexivity |]. split; [reflexivity |].
    rewrite js_set_proto by apply lookup_empty.
    split; [reflexivity | apply lookup_empty].
Qed.

(* ================================================================== *)
(** * Further properties of the storage *)
(* ================================================================== *)

(** ** The extraction loop, turn by turn *)

Lemma extract_turn_quiet (rt : Runtime) (depth : ReflectionDepth)
    (interactions : list Interaction) (i : nat) (interaction : Interaction)
    (directives : list TeachingDirective) (w : World) :
  (0 < length interactions)%nat ->
  emits rt depth interactions i interaction = false ->
  extract_turn rt depth interactions i interaction directives w = (inr directives, w).
Proof.
  intros Hlen. unfold emits, extract_turn. cbv zeta.
  destruct depth.
  - intros ->. reflexivity.
  - intros ->. reflexivity.
  - destruct (lookup_lt_is_Some_2 interactions
                (goldenIndex_of i (length interactions))
                (goldenIndex_of_lt i _ Hlen)) as [resonant ->].
    intros ->. reflexivity.
Qed.

Lemma extract_turn_emits (rt : Runtime) (depth : ReflectionDepth)
    (interactions : list Interaction) (i : nat) (interaction : Interaction)
    (directives : list TeachingDirective) (w : World) :
  emits rt depth interactions i interaction = true ->
  exists d : TeachingDirective,
    extract_turn rt depth interactions i interaction directives w
    = (inr (directives ++ [d]), advance w 1 0)
    /\ type d = depth_type depth
    /\ confidence d = depth_confidence depth
    /\ sourceInteractions d
       = index_string i
         :: match depth with
            | transcendent => [index_string (goldenIndex_of i (length interactions))]
            | _ => []
            end.
Proof.
  unfold emits, extract_turn. cbv zeta.
  destruct depth.
  - intros ->. rewrite (bind_returns _ _ _ _ _ (Date_now_returns rt w)).
    eexists (Build_TeachingDirective _ _ _ _ _ _ _). repeat split; reflexivity.
  - intros ->. rewrite (bind_returns _ _ _ _ _ (Date_now_returns rt w)).
    eexists (Build_TeachingDirective _ _ _ _ _ _ _). repeat split; reflexivity.
  - destruct (interactions !! goldenIndex_of i (length interactions)) as [resonant |];
      [| discriminate].
    intros ->. rewrite (bind_returns _ _ _ _ _ (Date_now_returns rt w)).
    eexists (Build_TeachingDirective _ _ _ _ _ _ _). repeat split; reflexivity.
Qed.

(** The loop pushes one directive per emitting interaction, in the order
    of the batch, and reads the clock once for each. *)
Lemma extract_loop_spec (rt : Runtime) (depth : ReflectionDepth)
    (interactions : list Interaction) (rest : list Interaction) :
  (rest <> [] -> 0 < length interactions)%nat ->
  forall (i : nat) (directives : list TeachingDirective) (w : World),
  exists new : list TeachingDirective,
    extract_loop rt depth interactions i rest directives w
    = (inr (directives ++ new), advance w (length new) 0)
    /\ Forall (fun d => type d = depth_type depth
                        /\ confidence d = depth_confidence depth) new
    /\ List.map sourceInteractions new
       = List.map (fun j => index_string j
                            :: match depth with
                               | transcendent =>
                                   [index_string (goldenIndex_of j (length interactions))]
                               | _ => []
                               end)
           (emitting_indices rt depth interactions i rest).
Proof.
  induction rest as [| interaction rest IH]; intros Hlen i directives w.
  - exists []. rewrite app_nil_r, advance_0.
    split; [reflexivity |]. split; [constructor | reflexivity].
  - assert (Hpos : (0 < length interactions)%nat) by (apply Hlen; discriminate).
    cbn [extract_loop emitting_indices].
    destruct (emits rt depth interactions i interaction) eqn:Hemits.
    + destruct (extract_turn_emits rt depth interactions i interaction directives w Hemits)
        as (d & Hturn & Htype & Hconf & Hsrc).
      destruct (IH (fun _ => Hpos) (S i) (directives ++ [d]) (advance w 1 0))
        as (new & Hloop & Hall & Hsrcs).
      exists (d :: new).
      rewrite (bind_returns _ _ _ _ _ Hturn), Hloop, advance_advance, <- app_assoc.
      cbn [length app List.map]. rewrite Nat.add_1_r.
      split; [reflexivity |]. split; [constructor; [split |]; assumption |].
      rewrite Hsrc, Hsrcs. reflexivity.
    + rewrite (bind_returns _ _ _ _ _
                 (extract_turn_quiet rt depth interactions i interaction directives w
                    Hpos Hemits)).
      apply (IH (fun _ => Hpos)).
Qed.

Lemma emitting_indices_length (rt : Runtime) (depth : ReflectionDepth)
    (interactions rest : list Interaction) (i : nat) :
  (length (emitting_indices rt depth interactions i rest) <= length rest)%nat.
Proof.
  revert i. induction rest as [| a rest IH]; intros i; [reflexivity |].
  cbn [emitting_indices length].
  destruct (emits rt depth interactions i a); cbn [length]; specialize (IH (S i)); lia.
Qed.

(** ** The sort of one depth's directives *)

Lemma depth_confidence_gap (depth : ReflectionDepth) :
  (0 <? depth_confidence depth - depth_confidence depth)%float = false.
Proof. destruct depth; reflexivity. Qed.

Lemma sort_by_confidence_same (c : float) (directives : list TeachingDirective) :
  (0 <? c - c)%float = false ->
  Forall (fun d => confidence d = c) directives ->
  sort_by_confidence directives = directives.
Proof.
  intros Hgap. unfold sort_by_confidence.
  induction 1 as [| a rest Ha Hrest IH]; [reflexivity |].
  cbn [fold_right]. rewrite IH.
  destruct Hrest as [| b rest' Hb _]; [reflexivity |].
  cbn [sort_insert]. unfold by_confidence. rewrite Ha, Hb, Hgap. reflexivity.
Qed.

Lemma extractTeachingDirectives_spec (rt : Runtime)
    (interactions : list Interaction) (depth : ReflectionDepth) (w : World) :
  exists directives : list TeachingDirective,
    extractTeachingDirectives rt interactions depth w
    = (inr directives, advance w (length directives) 0)
    /\ extract_loop rt depth interactions 0 interactions [] w
       = (inr directives, advance w (length directives) 0)
    /\ Forall (fun d => type d = depth_type depth
                        /\ confidence d = depth_confidence depth) directives
    /\ List.map sourceInteractions directives
       = List.map (fun j => index_string j
                            :: match depth with
                               | transcendent =>
                                   [index_string (goldenIndex_of j (length interactions))]
                               | _ => []
                               end)
           (emitting_indices rt depth interactions 0 interactions).
Proof.
  assert (Hlen : (interactions <> [] -> 0 < length interactions)%nat).
  { destruct interactions; [congruence | cbn; lia]. }
  destruct (extract_loop_spec rt depth interactions interactions Hlen 0%nat [] w)
    as (new & Hloop & Hall & Hsrcs).
  exists new. cbn [app] in Hloop.
  unfold extractTeachingDirectives. rewrite (bind_returns _ _ _ _ _ Hloop).
  rewrite (sort_by_confidence_same (depth_confidence depth) new
             (depth_confidence_gap depth)).
  - unfold ret. repeat split; assumption.
  - eapply Forall_impl; [exact Hall |]. intros d [_ Hd]. exact Hd.
Qed.

(** ** What reflection returns and stores, at every depth *)

(** The final sort of [extractTeachingDirectives] reorders nothing: the
    directives of one call all have the confidence of its depth, so the
    result is the list the loop built, in the order of the batch. *)
Theorem extractTeachingDirectives_sort_keeps_order
    (rt : Runtime) (interactions : list Interaction) (depth : ReflectionDepth)
    (w : World) :
  extractTeachingDirectives rt interactions depth w
  = extract_loop rt depth interactions 0 interactions [] w.
Proof.
  destruct (extractTeachingDirectives_spec rt interactions depth w)
    as (directives & -> & -> & _).
  reflexivity.
Qed.

(** [extractTeachingDirectives] never throws.  It returns one directive
    for each interaction whose turn emits, in the order of the batch; each
    has the type and the confidence of the depth and names the index of its
    interaction first (at transcendent depth, followed by the golden index,
    which is an index of the batch); the clock is read once per
    directive. *)
Theorem extractTeachingDirectives_one_per_emitting
    (rt : Runtime) (interactions : list Interaction) (depth : ReflectionDepth)
    (w : World) :
  exists directives : list TeachingDirective,
    extractTeachingDirectives rt interactions depth w
    = (inr directives, advance w (length directives) 0)
    /\ length directives
       = length (emitting_indices rt depth interactions 0 interactions)
    /\ (length directives <= length interactions)%nat
    /\ Forall (fun d => type d = depth_type depth
                        /\ confidence d = depth_confidence depth) directives
    /\ List.map sourceInteractions directives
       = List.map (fun j => index_string j
                            :: match depth with
                               | transcendent =>
                                   [index_string (goldenIndex_of j (length interactions))]
                               | _ => []
                               end)
           (emitting_indices rt depth interactions 0 interactions)
    /\ Forall (fun j => goldenIndex_of j (length interactions) < length interactions)%nat
         (emitting_indices rt depth interactions 0 interactions).
Proof.
  destruct (extractTeachingDirectives_spec rt interactions depth w)
    as (directives & Hrun & _ & Hall & Hsrcs).
  exists directives. split; [exact Hrun |].
  assert (Hlen : length directives
                 = length (emitting_indices rt depth interactions 0 interactions)).
  { rewrite <- (length_map sourceInteractions directives), Hsrcs, length_map.
    reflexivity. }
  split; [exact Hlen |].
  split; [rewrite Hlen; apply emitting_indices_length |].
  split; [exact Hall |]. split; [exact Hsrcs |].
  destruct interactions as [| a l]; [constructor |].
  apply Forall_forall. intros j _. apply goldenIndex_of_lt. cbn [length]. lia.
Qed.

(** [scaffoldReflection] never throws, whatever the id, the batch and the
    depth: it returns a scaffold for the id it was given, with at most one
    directive per interaction, and the only item it writes is the
    directives item, by the assignment [allDirectives[sessionId] =
    directives]; the sessions item and the current-session item are not
    read or written, no random number is drawn, and the clock is read once
    per directive and once for the timestamp. *)
Theorem scaffoldReflection_always_returns
    (rt : Runtime) (sessionId : string) (interactions : list Interaction)
    (depth : ReflectionDepth) (w : World) :
  exists sc : ReflectionScaffold,
    scaffoldReflection rt sessionId interactions depth w
    = (inr sc,
       {| storage :=
            {| SESSIONS := SESSIONS (storage w);
               CURRENT_SESSION := CURRENT_SESSION (storage w);
               TEACHING_DIRECTIVES :=
                 Some (js_set (parse_or_empty (TEACHING_DIRECTIVES (storage w)))
                         sessionId (rs_teachingDirectives sc)) |};
          clock_reads := S (length (rs_teachingDirectives sc) + clock_reads w);
          random_draws := random_draws w |})
    /\ rs_sessionId sc = sessionId
    /\ (length (rs_teachingDirectives sc) <= length interactions)%nat
    /\ emergentPatterns sc
       = calculateEmergentPatterns rt interactions (rs_teachingDirectives sc)
    /\ nextEvolutionPath sc
       = generateEvolutionPath (emergentPatterns sc) (rs_teachingDirectives sc)
    /\ rs_timestamp sc = clock rt (length (rs_teachingDirectives sc) + clock_reads w).
Proof.
  destruct (extractTeachingDirectives_spec rt interactions depth w)
    as (directives & Hrun & _ & _ & Hsrcs).
  rewrite (scaffoldReflection_eq rt sessionId interactions depth w _ directives Hrun).
  eexists (Build_ReflectionScaffold _ _ _ _ _). split; [reflexivity |].
  cbv [rs_sessionId rs_teachingDirectives emergentPatterns nextEvolutionPath rs_timestamp].
  split; [reflexivity |]. split; [| repeat split; reflexivity].
  rewrite <- (length_map sourceInteractions directives), Hsrcs, length_map.
  apply emitting_indices_length.
Qed.

(** Under every id other than ["__proto__"] the directives item holds,
    after [scaffoldReflection], exactly the list the scaffold returns, and
    the lists stored under the other ids are as before. *)
Theorem scaffoldReflection_stores_directives
    (rt : Runtime) (sessionId : string) (interactions : list Interaction)
    (depth : ReflectionDepth) (w : World) :
  sessionId <> "__proto__" ->
  exists (sc : ReflectionScaffold) (w' : World),
    scaffoldReflection rt sessionId interactions depth w = (inr sc, w')
    /\ parse_or_empty (TEACHING_DIRECTIVES (storage w')) !! sessionId
       = Some (rs_teachingDirectives sc)
    /\ (forall other : string,
          other <> sessionId ->
          parse_or_empty (TEACHING_DIRECTIVES (storage w')) !! other
          = parse_or_empty (TEACHING_DIRECTIVES (storage w)) !! other).
Proof.
  intros Hid.
  destruct (extractTeachingDirectives_spec rt interactions depth w)
    as (directives & Hrun & _).
  rewrite (scaffoldReflection_eq rt sessionId interactions depth w _ directives Hrun).
  eexists (Build_ReflectionScaffold _ _ _ _ _), _. split; [reflexivity |].
  cbv [storage TEACHING_DIRECTIVES parse_or_empty rs_teachingDirectives advance].
  rewrite js_set_insert by exact Hid. split.
  - apply lookup_insert_eq.
  - intros other Hother. apply lookup_insert_ne. congruence.
Qed.

Lemma scaffoldReflection_stores_directives_witness :
  "s1" <> "__proto__"
  /\ exists (sc : ReflectionScaffold) (w' : World),
       scaffoldReflection sample_runtime "s1" [sample_interaction "why?" None] surface
         sample_world = (inr sc, w')
       /\ parse_or_empty (TEACHING_DIRECTIVES (storage w')) !! "s1"
          = Some (rs_teachingDirectives sc)
       /\ (forall other : string,
             other <> "s1" ->
             parse_or_empty (TEACHING_DIRECTIVES (storage w')) !! other
             = parse_or_empty (TEACHING_DIRECTIVES (storage sample_world)) !! other).
Proof.
  assert (H : "s1" <> "__proto__") by discriminate.
  split; [exact H |].
  exact (scaffoldReflection_stores_directives sample_runtime "s1"
           [sample_interaction "why?" None] surface sample_world H).
Defined.

(** Only transcendent reflection can report wisdom: at surface and at deep
    depth no directive has the type [wisdom], so [wisdomDepth] is 0. *)
Theorem scaffoldReflection_wisdomDepth_below_transcendent
    (rt : Runtime) (sessionId : string) (interactions : list Interaction) (w : World) :
  (exists (sc : ReflectionScaffold) (w' : World),
     scaffoldReflection rt sessionId interactions surface w = (inr sc, w')
     /\ Forall (fun d => type d = pattern) (rs_teachingDirectives sc)
     /\ wisdomDepth (emergentPatterns sc) = 0%float)
  /\ (exists (sc : ReflectionScaffold) (w' : World),
        scaffoldReflection rt sessionId interactions deep w = (inr sc, w')
        /\ Forall (fun d => type d = principle) (rs_teachingDirectives sc)
        /\ wisdomDepth (emergentPatterns sc) = 0%float).
Proof.
  assert (Hnone : forall (t : DirectiveType) (ds : list TeachingDirective),
            t <> wisdom -> Forall (fun d => type d = t) ds ->
            List.filter (fun d => bool_decide (type d = wisdom)) ds = []).
  { intros t ds Ht. induction 1 as [| d ds Hd _ IH]; [reflexivity |].
    cbn [List.filter]. rewrite bool_decide_eq_false_2 by congruence. exact IH. }
  split.
  - destruct (extractTeachingDirectives_spec rt interactions surface w)
      as (directives & Hrun & _ & Hall & _).
    rewrite (scaffoldReflection_eq rt sessionId interactions surface w _ directives Hrun).
    assert (Htypes : Forall (fun d => type d = pattern) directives).
    { eapply Forall_impl; [exact Hall |]. intros d [Hd _]. exact Hd. }
    eexists (Build_ReflectionScaffold _ _ _ _ _), _. split; [reflexivity |].
    cbv [rs_teachingDirectives emergentPatterns]. split; [exact Htypes |].
    unfold calculateEmergentPatterns. cbv zeta. cbv [wisdomDepth].
    rewrite (Hnone pattern directives) by (discriminate || exact Htypes). reflexivity.
  - destruct (extractTeachingDirectives_spec rt interactions deep w)
      as (directives & Hrun & _ & Hall & _).
    rewrite (scaffoldReflection_eq rt sessionId interactions deep w _ directives Hrun).
    assert (Htypes : Forall (fun d => type d = principle) directives).
    { eapply Forall_impl; [exact Hall |]. intros d [Hd _]. exact Hd. }
    eexists (Build_ReflectionScaffold _ _ _ _ _), _. split; [reflexivity |].
    cbv [rs_teachingDirectives emergentPatterns]. split; [exact Htypes |].
    unfold calculateEmergentPatterns. cbv zeta. cbv [wisdomDepth].
    rewrite (Hnone principle directives) by (discriminate || exact Htypes). reflexivity.
Qed.

(** ** Emergent patterns and the evolution path *)

Lemma last_map {A B : Type} (f : A -> B) (l : list A) (d : A) :
  List.last (List.map f l) (f d) = f (List.last l d).
Proof.
  induction l as [| a l IH]; [reflexivity |].
  destruct l as [| b l]; [reflexivity |].
  change (List.last (f b :: List.map f l) (f d) = f (List.last (b :: l) d)).
  exact IH.
Qed.

(** On a batch of two interactions or more the learning velocity is
    [max(0, c_first - c_last)], each load read as [cognitiveLoad || 0.5];
    when the first and the last load are absent or truthy (neither 0 nor
    NaN) that is the reading [cognitiveLoad ?? 0.5]. *)
Theorem calculateEmergentPatterns_learningVelocity
    (rt : Runtime) (first : Interaction) (middle : list Interaction)
    (final : Interaction) (directives : list TeachingDirective) :
  (forall c, cognitiveLoad first = Some c -> Number.truthy c = true) ->
  (forall c, cognitiveLoad final = Some c -> Number.truthy c = true) ->
  learningVelocity (calculateEmergentPatterns rt (first :: middle ++ [final]) directives)
  = Number.Math_max 0 (cognitiveLoad_or_half first - cognitiveLoad_or_half final)
  /\ cognitiveLoad_or_half first = default 0.5%float (cognitiveLoad first)
  /\ cognitiveLoad_or_half final = default 0.5%float (cognitiveLoad final).
Proof.
  intros Hfirst Hfinal.
  assert (Hread : forall int,
            (forall c, cognitiveLoad int = Some c -> Number.truthy c = true) ->
            cognitiveLoad_or_half int = default 0.5%float (cognitiveLoad int)).
  { intros int Hint. unfold cognitiveLoad_or_half, Number.or_default.
    destruct (cognitiveLoad int) as [c |]; [| reflexivity].
    rewrite (Hint c eq_refl). reflexivity. }
  split; [| split; apply Hread; assumption].
  unfold calculateEmergentPatterns. cbv zeta. cbv [learningVelocity].
  destruct middle as [| second middle].
  - reflexivity.
  - cbn [app List.map].
    change (cognitiveLoad_or_half second :: List.map cognitiveLoad_or_half (middle ++ [final]))
      with (List.map cognitiveLoad_or_half (second :: middle ++ [final])).
    change (cognitiveLoad_or_half first
              :: List.map cognitiveLoad_or_half (second :: middle ++ [final]))
      with (List.map cognitiveLoad_or_half (first :: second :: middle ++ [final])).
    cbn [List.map]. 
    change (List.last (cognitiveLoad_or_half first :: cognitiveLoad_or_half second
                         :: List.map cognitiveLoad_or_half (middle ++ [final]))
              (cognitiveLoad_or_half first))
      with (List.last (List.map cognitiveLoad_or_half
                         (first :: second :: middle ++ [final]))
              (cognitiveLoad_or_half first)).
    rewrite last_map.
    change (first :: second :: middle ++ [final])
      with ((first :: second :: middle) ++ [final]).
    rewrite last_last. reflexivity.
Qed.

Lemma calculateEmergentPatterns_learningVelocity_witness :
  (forall c, cognitiveLoad (sample_interaction "a" (Some 0.75%float)) = Some c ->
             Number.truthy c = true)
  /\ (forall c, cognitiveLoad (sample_interaction "c" None) = Some c ->
                Number.truthy c = true)
  /\ learningVelocity
       (calculateEmergentPatterns sample_runtime
          (sample_interaction "a" (Some 0.75%float)
             :: [sample_interaction "b" (Some 0%float)] ++ [sample_interaction "c" None])
          [])
     = 0.25%float.
Proof.
  assert (H1 : forall c, cognitiveLoad (sample_interaction "a" (Some 0.75%float)) = Some c ->
                         Number.truthy c = true)
    by (intros c [= <-]; reflexivity).
  assert (H2 : forall c, cognitiveLoad (sample_interaction "c" None) = Some c ->
                         Number.truthy c = true)
    by (intros c [=]).
  split; [exact H1 |]. split; [exact H2 |].
  exact (proj1 (calculateEmergentPatterns_learningVelocity sample_runtime
                  (sample_interaction "a" (Some 0.75%float))
                  [sample_interaction "b" (Some 0%float)]
                  (sample_interaction "c" None) [] H1 H2)).
Defined.

(** A batch of at most one interaction has no learning velocity and a
    perfect conversational flow, whatever its directives. *)
Theorem calculateEmergentPatterns_short_batch
    (rt : Runtime) (only : Interaction) (directives : list TeachingDirective) :
  learningVelocity (calculateEmergentPatterns rt [] directives) = 0%float
  /\ conversationalFlow (calculateEmergentPatterns rt [] directives) = 1%float
  /\ learningVelocity (calculateEmergentPatterns rt [only] directives) = 0%float
  /\ conversationalFlow (calculateEmergentPatterns rt [only] directives) = 1%float.
Proof. repeat split; reflexivity. Qed.

(** [generateEvolutionPath] never returns an empty path: it is the single
    default step, or between one and four pairs of steps. *)
Theorem generateEvolutionPath_never_empty
    (patterns : EmergentPatterns) (directives : list TeachingDirective) :
  generateEvolutionPath patterns directives = ["Continue current learning trajectory"]
  \/ (exists pairs : nat,
        (1 <= pairs <= 4)%nat
        /\ length (generateEvolutionPath patterns directives) = (2 * pairs)%nat).
Proof.
  unfold generateEvolutionPath. cbv zeta.
  destruct (0.7 <? learningVelocity patterns)%float eqn:Hfast;
    [| destruct (learningVelocity patterns <? 0.3)%float];
    destruct (0.8 <? wisdomDepth patterns)%float;
    destruct (conversationalFlow patterns <? 0.5)%float;
    destruct (0.618 <? harmonicResonance (sacredGeometry patterns))%float;
    cbn [app];
    first [ left; reflexivity
          | right; exists 1%nat; split; [lia | reflexivity]
          | right; exists 2%nat; split; [lia | reflexivity]
          | right; exists 3%nat; split; [lia | reflexivity]
          | right; exists 4%nat; split; [lia | reflexivity] ].
Qed.

(** ** The life of a session *)

Lemma getCurrentSession_eq (w : World) :
  getCurrentSession w
  = match CURRENT_SESSION (storage w) with
    | None => (inr None, w)
    | Some currentSessionId =>
        if String.eqb currentSessionId "" then (inr None, w)
        else getSession currentSessionId w
    end.
Proof.
  unfold getCurrentSession, bind, get_storage.
  destruct (CURRENT_SESSION (storage w)) as [sid |]; [| reflexivity].
  destruct (String.eqb sid ""); reflexivity.
Qed.

(** After [createSession] the current session is the session just
    created: [getCurrentSession] reads back a session with the returned
    id, in phase [ACTIVE], with the initial metrics the call returned and
    the consent timestamp equal to its last activity; the sessions stored
    under other ids and the directives item are as before. *)
Theorem createSession_sets_current
    (rt : Runtime) (deviceFingerprint : option string) (w : World) :
  exists (r : CreateSessionResult) (w' : World) (s : LimnusSession),
    createSession rt ACTIVATION_PHRASE deviceFingerprint w = (inr r, w')
    /\ getCurrentSession w' = (inr (Some (Stored (Session s))), w')
    /\ id s = sessionId r
    /\ phase s = ACTIVE
    /\ cs_phase r = ACTIVE
    /\ metrics s = cs_metrics r
    /\ cs_metrics r = initialMetrics
    /\ teachingDirectives s = []
    /\ consentTimestamp s = Some (lastActivity s)
    /\ (forall other : string,
          other <> sessionId r ->
          parse_or_empty (SESSIONS (storage w')) !! other
          = parse_or_empty (SESSIONS (storage w)) !! other)
    /\ TEACHING_DIRECTIVES (storage w') = TEACHING_DIRECTIVES (storage w)
    /\ clock_reads w' = S (clock_reads w).
Proof.
  destruct (createSession_accepts rt deviceFingerprint w)
    as (r & s & b & draws & Hrun & Hproto & Hempty & Hid & _ & _ & _ & _ & _
        & Hphase & Hmetrics & Hcs & Hcsp & Hdirs & Hconsent & Hlast).
  exists r. eexists. exists s. split; [exact Hrun |].
  split.
  - rewrite getCurrentSession_eq. cbv [storage CURRENT_SESSION].
    destruct (String.eqb_spec (sessionId r) "") as [Heq | _]; [contradiction |].
    apply getSession_own. cbv [storage SESSIONS parse_or_empty].
    apply lookup_insert_eq.
  - cbv [storage SESSIONS TEACHING_DIRECTIVES parse_or_empty clock_reads].
    rewrite Hmetrics, Hcs, Hconsent, Hlast.
    repeat split; try assumption; try reflexivity.
    intros other Hother. apply lookup_insert_ne. congruence.
Qed.

(** [clearAllData] forgets everything: afterwards there is no current
    session, every id that is not an inherited name is unknown to
    [getSession] and to [updateMetrics], and clearing again changes
    nothing. *)
Theorem clearAllData_forgets (w : World) :
  exists w' : World,
    clearAllData w = (inr tt, w')
    /\ storage w' = empty_storage
    /\ clock_reads w' = clock_reads w
    /\ random_draws w' = random_draws w
    /\ getCurrentSession w' = (inr None, w')
    /\ (forall sessionId : string,
          sessionId ∉ Object_prototype_names ->
          getSession sessionId w' = (inr None, w'))
    /\ (forall (rt : Runtime) (sessionId : string) (update : PartialMetrics)
               (context : option UpdateContext),
          sessionId ∉ Object_prototype_names ->
          updateMetrics rt sessionId update context w' = (inl SessionNotFound, w'))
    /\ clearAllData w' = (inr tt, w').
Proof.
  eexists. split; [reflexivity |].
  cbv [storage clock_reads random_draws].
  repeat (split; [reflexivity |]).
  split; [| split; [| reflexivity]].
  - intros sessionId Hnotin. apply getSession_undefined; [apply lookup_empty | exact Hnotin].
  - intros rt sessionId update context Hnotin.
    apply updateMetrics_not_found, getSession_undefined;
      [apply lookup_empty | exact Hnotin].
Qed.

(** What [storeSession] writes is what [getSession] reads back under the
    session's id, and reading any other id gives what it gave before; the
    current-session item and the directives item are untouched. *)
Theorem storeSession_getSession (s : LimnusSession) (w : World) :
  id s <> "__proto__" ->
  exists w' : World,
    storeSession (Session s) w = (inr tt, w')
    /\ getSession (id s) w' = (inr (Some (Stored (Session s))), w')
    /\ (forall other : string,
          other <> id s -> (getSession other w').1 = (getSession other w).1)
    /\ CURRENT_SESSION (storage w') = CURRENT_SESSION (storage w)
    /\ TEACHING_DIRECTIVES (storage w') = TEACHING_DIRECTIVES (storage w).
Proof.
  intros Hid. eexists. split; [apply storeSession_returns |].
  cbv [with_storage storage CURRENT_SESSION TEACHING_DIRECTIVES session_key].
  split; [| split; [| split; reflexivity]].
  - rewrite getSession_eq. cbv [storage SESSIONS parse_or_empty].
    rewrite js_get_set_eq by exact Hid. reflexivity.
  - intros other Hother. rewrite !getSession_eq. cbv [storage SESSIONS parse_or_empty fst].
    rewrite js_get_set_ne by congruence. reflexivity.
Qed.

Lemma storeSession_getSession_witness :
  id sample_session <> "__proto__"
  /\ exists w' : World,
       storeSession (Session sample_session) initial_world = (inr tt, w')
       /\ getSession (id sample_session) w'
          = (inr (Some (Stored (Session sample_session))), w')
       /\ (forall other : string,
             other <> id sample_session ->
             (getSession other w').1 = (getSession other initial_world).1)
       /\ CURRENT_SESSION (storage w') = CURRENT_SESSION (storage initial_world)
       /\ TEACHING_DIRECTIVES (storage w') = TEACHING_DIRECTIVES (storage initial_world).
Proof.
  assert (H : id sample_session <> "__proto__") by discriminate.
  split; [exact H |].
  exact (storeSession_getSession sample_session initial_world H).
Defined.

Lemma initialMetrics_NoDup : NoDup (Object_keys initialMetrics).
Proof. apply (bool_decide_unpack _). vm_compute. exact I. Qed.

(** A session that was created and then updated still carries the consent
    timestamp of its creation and its single genesis block; only its
    metrics and its last activity have moved on, and it is still the
    current session. *)
Theorem createSession_then_updateMetrics
    (rt : Runtime) (deviceFingerprint : option string) (update : PartialMetrics)
    (context : option UpdateContext) (w : World) :
  exists (r : CreateSessionResult) (w1 : World) (r2 : UpdateMetricsResult) (w2 : World)
         (s2 : LimnusSession) (b : MemoryBlock),
    createSession rt ACTIVATION_PHRASE deviceFingerprint w = (inr r, w1)
    /\ updateMetrics rt (sessionId r) update context w1 = (inr r2, w2)
    /\ success r2 = true
    /\ getSession (sessionId r) w2 = (inr (Some (Stored (Session s2))), w2)
    /\ getCurrentSession w2 = (inr (Some (Stored (Session s2))), w2)
    /\ id s2 = sessionId r
    /\ phase s2 = ACTIVE
    /\ consentTimestamp s2 = Some (toISOString rt (clock rt (clock_reads w)))
    /\ lastActivity s2 = toISOString rt (clock rt (S (clock_reads w)))
    /\ memoryChain s2 = [b]
    /\ signature b = "genesis"
    /\ previousHash b = "0"
    /\ (forall k : MetricKey,
          obj_get (updatedMetrics r2) k = None ->
          obj_get (metrics s2) k = obj_get initialMetrics k)
    /\ (forall (k : MetricKey) (v : float),
          obj_get (updatedMetrics r2) k = Some v -> obj_get (metrics s2) k = Some v).
Proof.
  destruct (createSession_accepts rt deviceFingerprint w)
    as (r & s & b & draws & Hrun & Hproto & Hempty & Hid & Hchain & Hprev & Hsig & _ & _
        & Hphase & Hmetrics & _ & _ & _ & Hconsent & _).
  set (sessions0 := parse_or_empty (SESSIONS (storage w))) in *.
  set (directives0 := TEACHING_DIRECTIVES (storage w)) in *.
  set (reads0 := clock_reads w) in *.
  set (draws0 := random_draws w) in *.
  clearbody sessions0 directives0 reads0 draws0.
  exists r. eexists.
  eexists (Build_UpdateMetricsResult _ _ _ _), _, (Build_LimnusSession _ _ _ _ _ _ _ _ _ _), b.
  split; [exact Hrun |].
  split.
  - rewrite (updateMetrics_found rt (sessionId r) update context _ (Stored (Session s)))
      by (apply getSession_own; cbv [storage SESSIONS parse_or_empty];
          apply lookup_insert_eq).
    cbv [updated_session session_key metrics_of storage SESSIONS CURRENT_SESSION
         TEACHING_DIRECTIVES clock_reads random_draws parse_or_empty].
    fold (id s). rewrite Hid.
    unfold js_set. rewrite lookup_insert_eq.
    reflexivity.
  - cbv [success id phase consentTimestamp lastActivity memoryChain metrics
         updatedMetrics].
    fold (phase s) (consentTimestamp s) (memoryChain s) (metrics s).
    rewrite Hphase, Hconsent, Hchain, Hmetrics, Hsig, Hprev.
    split; [reflexivity |].
    split; [apply getSession_own; cbv [storage SESSIONS parse_or_empty];
            apply lookup_insert_eq |].
    split.
    { rewrite getCurrentSession_eq. cbv [storage CURRENT_SESSION].
      destruct (String.eqb_spec (sessionId r) "") as [Heq | _]; [contradiction |].
      apply getSession_own. cbv [storage SESSIONS parse_or_empty].
      apply lookup_insert_eq. }
    repeat (split; [reflexivity |]).
    rewrite (obj_spread_copy initialMetrics) by apply initialMetrics_NoDup.
    split.
    + intros k Hk. rewrite obj_get_spread by apply cleanMetrics_NoDup.
      rewrite Hk. reflexivity.
    + intros k v Hk. rewrite obj_get_spread by apply cleanMetrics_NoDup.
      rewrite Hk. reflexivity.
Qed.

(** ** What an update can and cannot set *)

(** In every successful update the four properties the method computes
    hold the computed values, whatever the caller passed under these keys;
    [interactionPattern] holds the computed complexity when the context has
    a non-empty [userInput] and is absent otherwise, even when the caller
    passed one; every other property is the caller's, when it holds a
    value. *)
Theorem updateMetrics_computed_fields_win
    (rt : Runtime) (sessionId : string) (update : PartialMetrics)
    (context : option UpdateContext) (w : World) (o : SessionObject) :
  parse_or_empty (SESSIONS (storage w)) !! sessionId = Some o ->
  exists (r : UpdateMetricsResult) (w' : World),
    updateMetrics rt sessionId update context w = (inr r, w')
    /\ obj_get (updatedMetrics r) phaseAlignment
       = Some (calculatePhaseAlignment rt (duration_or_0 context))
    /\ obj_get (updatedMetrics r) responseLatency = Some (duration_or_0 context)
    /\ obj_get (updatedMetrics r) spiralResonance
       = Some (calculateSpiralResonance rt (duration_or_0 context))
    /\ obj_get (updatedMetrics r) consciousnessDepth
       = Some (calculateConsciousnessDepth rt (duration_or_0 context))
    /\ obj_get (updatedMetrics r) interactionPattern = interactionPattern_of context
    /\ (forall k : MetricKey,
          computed_field rt context k = None ->
          obj_get (updatedMetrics r) k
          = match obj_get (obj_spread [] update) k with
            | Some (Some v) => Some v
            | _ => None
            end).
Proof.
  intros Hstored.
  rewrite (updateMetrics_found rt sessionId update context w (Stored o))
    by (apply getSession_own, Hstored).
  eexists (Build_UpdateMetricsResult _ _ _ _), _. split; [reflexivity |].
  cbv [updatedMetrics].
  repeat (split; [rewrite cleanMetrics_get; reflexivity |]).
  intros k Hk. rewrite cleanMetrics_get, Hk. reflexivity.
Qed.

Lemma updateMetrics_computed_fields_win_witness :
  parse_or_empty (SESSIONS (storage sample_world)) !! "s1" = Some (Session sample_session)
  /\ exists (r : UpdateMetricsResult) (w' : World),
       updateMetrics sample_runtime "s1"
         [(phaseAlignment, Some 0.75%float); (interactionPattern, Some 0.75%float);
          (emotionalDepth, Some 0.25%float); (creativityIndex, None)]
         None sample_world = (inr r, w')
       /\ obj_get (updatedMetrics r) phaseAlignment = Some 0.5%float
       /\ obj_get (updatedMetrics r) responseLatency = Some 0%float
       /\ obj_get (updatedMetrics r) interactionPattern = None
       /\ obj_get (updatedMetrics r) emotionalDepth = Some 0.25%float
       /\ obj_get (updatedMetrics r) creativityIndex = None.
Proof.
  assert (H : parse_or_empty (SESSIONS (storage sample_world)) !! "s1"
              = Some (Session sample_session)) by (vm_compute; reflexivity).
  split; [exact H |].
  destruct (updateMetrics_computed_fields_win sample_runtime "s1"
              [(phaseAlignment, Some 0.75%float); (interactionPattern, Some 0.75%float);
               (emotionalDepth, Some 0.25%float); (creativityIndex, None)]
              None sample_world (Session sample_session) H)
    as (r & w' & Hrun & Hphase & Hlatency & _ & _ & Hpattern & Hrest).
  exists r, w'. split; [exact Hrun |].
  split; [exact Hphase |]. split; [exact Hlatency |]. split; [exact Hpattern |].
  split; [exact (Hrest emotionalDepth eq_refl) | exact (Hrest creativityIndex eq_refl)].
Defined.




(** ** The shape of a generated id *)

Lemma hex_piece (v : Z) :
  0 <= v < 16 ->
  JsString.toString 16 v = String (JsString.digit_char v) EmptyString
  /\ is_hex_digit (JsString.digit_char v) = true.
Proof.
  intros Hv. replace v with (Z.of_nat (Z.to_nat v)) by lia.
  assert (Hn : (Z.to_nat v < 16)%nat) by lia.
  generalize dependent (Z.to_nat v). intros n Hn.
  do 16 (destruct n as [| n]; [split; reflexivity |]). lia.
Qed.

Lemma variant_piece (r : Z) :
  0 <= r < 16 ->
  template_char_ok "y" (JsString.digit_char (Z.lor (Z.land r 3) 8)) = true
  /\ JsString.toString 16 (Z.lor (Z.land r 3) 8)
     = String (JsString.digit_char (Z.lor (Z.land r 3) 8)) EmptyString.
Proof.
  intros Hr. replace r with (Z.of_nat (Z.to_nat r)) by lia.
  assert (Hn : (Z.to_nat r < 16)%nat) by lia.
  generalize dependent (Z.to_nat r). intros n Hn.
  do 16 (destruct n as [| n]; [split; reflexivity |]). lia.
Qed.

Lemma uuid_replace_shape (rt : Runtime) (c : ascii) (w : World) :
  (Ascii.eqb c "x" || Ascii.eqb c "y" = true ->
   0 <= Number.ToInt32 (Math_random rt (random_draws w) * 16) < 16) ->
  exists d : ascii,
    uuid_replace rt c w
    = (inr (String d EmptyString),
       advance w 0 (if Ascii.eqb c "x" || Ascii.eqb c "y" then 1 else 0))
    /\ template_char_ok c d = true.
Proof.
  intros Hdraw. unfold uuid_replace.
  destruct (Ascii.eqb c "x" || Ascii.eqb c "y") eqn:Hxy.
  - specialize (Hdraw eq_refl).
    rewrite (bind_returns _ _ _ _ _ (random_returns rt w)). cbv zeta. unfold ret.
    destruct (Ascii.eqb c "x") eqn:Hx.
    + apply Ascii.eqb_eq in Hx as ->.
      destruct (hex_piece _ Hdraw) as [-> Hhex].
      eexists. split; [reflexivity | exact Hhex].
    + cbn [orb] in Hxy. apply Ascii.eqb_eq in Hxy as ->.
      destruct (variant_piece _ Hdraw) as [Hok ->].
      eexists. split; [reflexivity | exact Hok].
  - exists c. unfold ret. rewrite advance_0. split; [reflexivity |].
    unfold template_char_ok.
    apply orb_false_elim in Hxy as [-> ->]. apply Ascii.eqb_refl.
Qed.

Lemma uuid_from_shape (rt : Runtime) (template : string) :
  forall w : World,
    (forall k : nat,
        (random_draws w <= k < placeholders template + random_draws w)%nat ->
        0 <= Number.ToInt32 (Math_random rt k * 16) < 16) ->
    exists uuid : string,
      uuid_from rt template w = (inr uuid, advance w 0 (placeholders template))
      /\ matches_template template uuid = true.
Proof.
  induction template as [| c rest IH]; intros w Hdraws.
  - exists EmptyString. cbn [placeholders]. rewrite advance_0. split; reflexivity.
  - cbn [placeholders] in Hdraws |- *.
    destruct (uuid_replace_shape rt c w) as (d & Hpiece & Hok).
    { intros Hxy. apply Hdraws. rewrite Hxy. lia. }
    destruct (IH (advance w 0 (if Ascii.eqb c "x" || Ascii.eqb c "y" then 1 else 0)))
      as (tail & Htail & Hmatch).
    { intros k Hk. apply Hdraws. cbn [advance random_draws] in Hk. lia. }
    exists (String d tail). rewrite uuid_from_cons.
    rewrite (bind_returns _ _ _ _ _ Hpiece), (bind_returns _ _ _ _ _ Htail).
    unfold ret. rewrite advance_advance, append_cons, append_nil.
    split.
    + f_equal. f_equal; lia.
    + cbn [matches_template]. rewrite Hok, Hmatch. reflexivity.
Qed.

Lemma matches_template_length (template uuid : string) :
  matches_template template uuid = true -> String.length uuid = String.length template.
Proof.
  revert uuid. induction template as [| t template IH]; intros [| c uuid];
    cbn [matches_template String.length]; try discriminate; [reflexivity |].
  intros Hm. apply andb_true_iff in Hm as [_ Hm]. f_equal. apply IH, Hm.
Qed.

(** When the 31 draws [generateUUID] makes each fall in a sixteenth of
    [0, 1) (so that [Math.random() * 16 | 0] is between 0 and 15), the id
    has the shape of the template: 36 characters, hyphens and the version
    digit [4] in their places, one of [8], [9], [a], [b] for the [y], and
    lower-case hexadecimal digits elsewhere.  Exactly 31 random numbers are
    drawn; the clock and the store are untouched. *)
Theorem generateUUID_shape (rt : Runtime) (w : World) :
  (forall k : nat,
      (random_draws w <= k < 31 + random_draws w)%nat ->
      0 <= Number.ToInt32 (Math_random rt k * 16) < 16) ->
  exists uuid : string,
    generateUUID rt w = (inr uuid, advance w 0 31)
    /\ matches_template uuid_template uuid = true
    /\ String.length uuid = 36%nat.
Proof.
  intros Hdraws.
  destruct (uuid_from_shape rt uuid_template w Hdraws) as (uuid & Hrun & Hmatch).
  exists uuid. split; [exact Hrun |]. split; [exact Hmatch |].
  apply (matches_template_length uuid_template uuid Hmatch).
Qed.

Lemma generateUUID_shape_witness :
  (forall k : nat,
      (random_draws initial_world <= k < 31 + random_draws initial_world)%nat ->
      0 <= Number.ToInt32 (Math_random sample_runtime k * 16) < 16)
  /\ generateUUID sample_runtime initial_world
     = (inr "00011112-2223-4333-8444-555566667777", advance initial_world 0 31).
Proof.
  assert (H : forall k : nat,
             (random_draws initial_world <= k < 31 + random_draws initial_world)%nat ->
             0 <= Number.ToInt32 (Math_random sample_runtime k * 16) < 16).
  { intros k [_ Hk]. cbn [random_draws initial_world] in Hk.
    do 31 (destruct k as [| k];
           [split; [apply Z.leb_le | apply Z.ltb_lt]; vm_compute; reflexivity |]).
    lia. }
  split; [exact H |].
  destruct (generateUUID_shape sample_runtime initial_world H) as (uuid & Hrun & _).
  rewrite Hrun. vm_compute in Hrun. injection Hrun as <-. reflexivity.
Defined.

(** ** [createHash] as a polynomial hash *)

Lemma wrap32_eq (z : Z) :
  Number.wrap32 z = z - 2 ^ 32 * ((z + 2 ^ 31) / 2 ^ 32).
Proof. unfold Number.wrap32. rewrite Z.mod_eq by lia. lia. Qed.

Lemma wrap32_add_multiple (z k : Z) : Number.wrap32 (z + k * 2 ^ 32) = Number.wrap32 z.
Proof.
  unfold Number.wrap32.
  replace (z + k * 2 ^ 32 + 2 ^ 31) with (z + 2 ^ 31 + k * 2 ^ 32) by lia.
  rewrite Z_mod_plus_full. reflexivity.
Qed.

Lemma hash_step_wrap32 (p char : Z) :
  hash_step (Number.wrap32 p) char = Number.wrap32 (31 * p + char).
Proof.
  unfold hash_step. rewrite Z.shiftl_mul_pow2 by lia.
  rewrite (wrap32_eq (Number.wrap32 p * 2 ^ 5)), (wrap32_eq p).
  set (q1 := (p + 2 ^ 31) / 2 ^ 32).
  set (q2 := ((p - 2 ^ 32 * q1) * 2 ^ 5 + 2 ^ 31) / 2 ^ 32).
  replace ((p - 2 ^ 32 * q1) * 2 ^ 5 - 2 ^ 32 * q2 - (p - 2 ^ 32 * q1) + char)
    with (31 * p + char + (- 31 * q1 - q2) * 2 ^ 32) by lia.
  apply wrap32_add_multiple.
Qed.

Lemma hash_fold_wrap32 (data : list Z) (p : Z) :
  fold_left hash_step data (Number.wrap32 p)
  = Number.wrap32 (fold_left (fun h char => 31 * h + char) data p).
Proof.
  revert p. induction data as [| char data IH]; intros p; [reflexivity |].
  cbn [fold_left]. rewrite hash_step_wrap32. apply IH.
Qed.

(** The loop of [createHash] computes the polynomial hash with multiplier
    31 of the code units, reduced once to a signed 32-bit integer: the
    truncations to 32 bits made at every turn do not change the result.
    The string returned renders the absolute value of that integer in
    radix 16. *)
Theorem createHash_polynomial (data : list Z) :
  hash_loop data = Number.wrap32 (fold_left (fun h char => 31 * h + char) data 0)
  /\ createHash_codes data
     = JsString.toString 16
         (Z.abs (Number.wrap32 (fold_left (fun h char => 31 * h + char) data 0))).
Proof.
  assert (Hloop : hash_loop data
                  = Number.wrap32 (fold_left (fun h char => 31 * h + char) data 0)).
  { unfold hash_loop. change 0 with (Number.wrap32 0) at 1. apply hash_fold_wrap32. }
  split; [exact Hloop |]. unfold createHash_codes. rewrite Hloop. reflexivity.
Qed.

(** ** The length of a hash *)

Lemma digits_aux_length (fuel : nat) :
  forall (n : Z) (acc : string) (k : nat),
    0 <= n < 16 ^ Z.of_nat (S k) ->
    (String.length acc < String.length (JsString.digits_aux (S fuel) 16 n acc)
     <= String.length acc + S k)%nat.
Proof.
  induction fuel as [| fuel IH]; intros n acc k Hn.
  - cbn [JsString.digits_aux]. destruct (n / 16 =? 0); cbn [String.length]; lia.
  - change (JsString.digits_aux (S (S fuel)) 16 n acc)
      with (if n / 16 =? 0
            then String (JsString.digit_char (n mod 16)) acc
            else JsString.digits_aux (S fuel) 16 (n / 16)
                   (String (JsString.digit_char (n mod 16)) acc)).
    destruct (Z.eqb_spec (n / 16) 0) as [Hq | Hq]; [cbn [String.length]; lia |].
    destruct k as [| k].
    + exfalso. apply Hq. apply Z.div_small. change (16 ^ Z.of_nat 1) with 16 in Hn. lia.
    + assert (Hdiv : 0 <= n / 16 < 16 ^ Z.of_nat (S k)).
      { split; [apply Z.div_pos; lia |].
        apply Z.div_lt_upper_bound; [lia |].
        replace (16 * 16 ^ Z.of_nat (S k)) with (16 ^ Z.of_nat (S (S k))); [lia |].
        rewrite (Nat2Z.inj_succ (S k)), Z.pow_succ_r by lia. reflexivity. }
      specialize (IH (n / 16) (String (JsString.digit_char (n mod 16)) acc) k Hdiv).
      cbn [String.length] in IH. lia.
Qed.

(** A hash is between one and eight characters long. *)
Theorem createHash_length (data : string) :
  (1 <= String.length (createHash data) <= 8)%nat.
Proof.
  unfold createHash, createHash_codes.
  pose proof (hash_loop_range (JsString.charCodes data)) as Hr.
  set (n := Z.abs (hash_loop (JsString.charCodes data))).
  assert (Hn : 0 <= n <= 2 ^ 31) by lia. clearbody n.
  unfold JsString.toString. destruct (Z.ltb_spec n 0) as [Hneg | _]; [lia |].
  unfold JsString.digits. destruct (Z.eqb_spec n 0) as [-> | Hnz]; [cbn; lia |].
  pose proof (digits_aux_length (Z.to_nat (Z.log2 n)) n EmptyString 7) as Hlen.
  cbn [String.length] in Hlen. 
  assert (Hb : 0 <= n < 16 ^ Z.of_nat 8).
  { change (16 ^ Z.of_nat 8) with 4294967296. lia. }
  specialize (Hlen Hb). lia.
Qed.

(** ** The word counts of [calculateInteractionComplexity] *)

Lemma split_spaces_from_length (after_sep : bool) (s : string) :
  (1 <= length (JsString.split_spaces_from after_sep s))%nat.
Proof.
  revert after_sep. induction s as [| a r IH]; intros after_sep; [cbn; lia |].
  cbn [JsString.split_spaces_from].
  destruct (JsString.is_space a).
  - destruct after_sep; [apply IH | cbn [length]; lia].
  - destruct (JsString.split_spaces_from false r); cbn [length]; lia.
Qed.

Lemma is_space_lower_char (c : ascii) :
  JsString.is_space (JsString.lower_char c) = JsString.is_space c.
Proof. destruct c as [[] [] [] [] [] [] [] []]; reflexivity. Qed.

Lemma split_spaces_from_toLowerCase (after_sep : bool) (s : string) :
  length (JsString.split_spaces_from after_sep (JsString.toLowerCase s))
  = length (JsString.split_spaces_from after_sep s).
Proof.
  revert after_sep. induction s as [| a r IH]; intros after_sep; [reflexivity |].
  cbn [JsString.toLowerCase JsString.split_spaces_from].
  rewrite is_space_lower_char.
  destruct (JsString.is_space a).
  - destruct after_sep; cbn [length]; rewrite IH; reflexivity.
  - specialize (IH false).
    destruct (JsString.split_spaces_from false (JsString.toLowerCase r)),
             (JsString.split_spaces_from false r);
      cbn [length] in *; lia.
Qed.

Lemma remove_spaces_length (s : string) :
  (String.length (JsString.remove_spaces s) <= String.length s)%nat.
Proof.
  induction s as [| a r IH]; [reflexivity |].
  cbn [JsString.remove_spaces]. destruct (JsString.is_space a); cbn [String.length]; lia.
Qed.

(** The quotients of [calculateInteractionComplexity] are well formed: the
    word count, by which the average word length and the diversity score
    divide, is at least 1; the number of distinct lower-cased words is
    between 1 and the word count; and the characters counted once white
    space is removed are at most the characters of the input. *)
Theorem calculateInteractionComplexity_counts (userInput : string) :
  (1 <= length (JsString.split_spaces userInput))%nat
  /\ (1 <= Set_size (JsString.split_spaces (JsString.toLowerCase userInput))
      <= length (JsString.split_spaces userInput))%nat
  /\ (String.length (JsString.remove_spaces userInput) <= String.length userInput)%nat.
Proof.
  unfold JsString.split_spaces, Set_size.
  pose proof (split_spaces_from_length false userInput) as Hwords.
  split; [exact Hwords |]. split; [| apply remove_spaces_length].
  rewrite <- (split_spaces_from_toLowerCase false userInput) in Hwords |- *.
  set (words := JsString.split_spaces_from false (JsString.toLowerCase userInput)) in *.
  clearbody words. split.
  - destruct words as [| word words]; [cbn in Hwords; lia |].
    assert (Hin : word ∈ remove_dups (word :: words))
      by (apply elem_of_remove_dups, list_elem_of_here).
    destruct (remove_dups (word :: words)); [apply elem_of_nil in Hin; contradiction |].
    cbn [length]. lia.
  - apply submseteq_length, NoDup_submseteq; [apply NoDup_remove_dups |].
    intros word Hword. apply elem_of_remove_dups, Hword.
Qed.

(** ** The clamp of the computed metrics *)

Lemma SFcompare_antisym (x y : spec_float) :
  SFcompare y x = option_map CompOpp (SFcompare x y).
Proof.
  destruct x as [sx | sx | | sx mx ex], y as [sy | sy | | sy my ey];
    cbn [SFcompare option_map];
    try destruct sx; try destruct sy; try reflexivity;
    rewrite (Z.compare_antisym ex ey);
    destruct (ex ?= ey); cbn [CompOpp]; try reflexivity;
    pose proof (Pos.compare_cont_antisym mx my Eq) as Hm; cbn [CompOpp] in Hm;
    rewrite <- Hm; destruct (Pos.compare_cont Eq mx my); reflexivity.
Qed.

Lemma is_nan_false (x : float) : PrimFloat.is_nan x = false -> Prim2SF x <> S754_nan.
Proof.
  unfold PrimFloat.is_nan. rewrite FloatAxioms.eqb_spec. intros Hnan Heq.
  rewrite Heq in Hnan. discriminate Hnan.
Qed.

Lemma ltb_leb (a b : float) : (a <? b)%float = true -> (a <=? b)%float = true.
Proof.
  rewrite FloatAxioms.ltb_spec, FloatAxioms.leb_spec. unfold SFltb, SFleb.
  destruct (SFcompare (Prim2SF a) (Prim2SF b)) as [[] |]; congruence.
Qed.

Lemma not_ltb_leb (a b : float) :
  PrimFloat.is_nan a = false -> PrimFloat.is_nan b = false ->
  (b <? a)%float = false -> (a <=? b)%float = true.
Proof.
  intros Ha Hb. apply is_nan_false in Ha, Hb.
  rewrite FloatAxioms.ltb_spec, FloatAxioms.leb_spec. unfold SFltb, SFleb.
  rewrite (SFcompare_antisym (Prim2SF a) (Prim2SF b)).
  destruct (Prim2SF a) as [sa | sa | | sa ma ea] eqn:Ea; [| | congruence |];
    destruct (Prim2SF b) as [sb | sb | | sb mb eb] eqn:Eb; try congruence;
    destruct (SFcompare _ _) as [[] |] eqn:Hc; cbn [option_map CompOpp];
    try congruence; discriminate Hc.
Qed.

Lemma clamp_unit_or_nan (x : float) :
  unit_or_nan (Number.Math_max 0 (Number.Math_min 1 x)) = true.
Proof.
  unfold Number.Math_min.
  change (PrimFloat.is_nan 1) with false. cbn [orb].
  change (Number.is_neg_zero 1) with false. cbv iota.
  destruct (PrimFloat.is_nan x) eqn:Hnan; [reflexivity |].
  destruct (1 <? x)%float eqn:Habove; [reflexivity |].
  assert (Hle1 : (x <=? 1)%float = true) by (apply not_ltb_leb; [exact Hnan | reflexivity | exact Habove]).
  assert (Hclamp : Number.Math_max 0 x = x /\ (0 <=? x)%float = true
                   \/ Number.Math_max 0 x = 0%float).
  { unfold Number.Math_max.
    change (PrimFloat.is_nan 0) with false. cbn [orb]. rewrite Hnan.
    change (Number.is_neg_zero 0) with false. cbv iota.
    destruct (0 <? x)%float eqn:Hpos; [left; split; [reflexivity | apply ltb_leb, Hpos] |].
    right. destruct (x <? 0)%float; reflexivity. }
  assert (Hgoal : unit_or_nan (Number.Math_max 0 x) = true).
  { destruct Hclamp as [[-> H0] | ->]; [| reflexivity].
    unfold unit_or_nan. rewrite H0, Hle1. apply orb_true_r. }
  destruct (x <? 1)%float; exact Hgoal.
Qed.

(** The three metrics [updateMetrics] computes from the session duration
    never leave the unit interval: whatever the duration and whatever the
    host's sine, cosine and logarithm return, each is a number between 0
    and 1, or NaN. *)
Theorem computed_metrics_in_unit_interval (rt : Runtime) (sessionDuration : float) :
  unit_or_nan (calculatePhaseAlignment rt sessionDuration) = true
  /\ unit_or_nan (calculateSpiralResonance rt sessionDuration) = true
  /\ unit_or_nan (calculateConsciousnessDepth rt sessionDuration) = true.
Proof.
  unfold calculatePhaseAlignment, calculateSpiralResonance, calculateConsciousnessDepth.
  cbv zeta. repeat split; apply clamp_unit_or_nan.
Qed.

(** ** The message analysis and what the storage keeps of it *)

Lemma count_included_le (words : list string) (text : string) :
  (count_included words text <= length words)%nat.
Proof. unfold count_included. apply List.filter_length_le. Qed.

Lemma score_within_fifth_quarter (n : nat) :
  (n <= 12)%nat ->
  within 0.2 (0.2 + Number.Math_min 1 (Number.of_nat n / 4) * 0.8) = true.
Proof. intros Hn. do 13 (destruct n as [| n]; [vm_compute; reflexivity |]). lia. Qed.

Lemma score_within_fifth_third (n : nat) :
  (n <= 12)%nat ->
  within 0.2 (0.2 + Number.Math_min 1 (Number.of_nat n / 3) * 0.8) = true.
Proof. intros Hn. do 13 (destruct n as [| n]; [vm_compute; reflexivity |]). lia. Qed.

Lemma score_within_three_tenths (n : nat) :
  (n <= 12)%nat ->
  within 0.3 (0.3 + Number.Math_min 1 (Number.of_nat n / 3) * 0.7) = true.
Proof. intros Hn. do 13 (destruct n as [| n]; [vm_compute; reflexivity |]). lia. Qed.

Lemma analyzeMessageForMetrics_eq (rt : Runtime) (message : string) (w : World) :
  exists (complexity latency : float),
    analyzeMessageForMetrics rt message w
    = (inr [ (emotionalDepth,
              Some (0.2 + vocabulary_score emotionalWords 4
                            (JsString.toLowerCase message) * 0.8)%float);
             (neuralComplexity, Some complexity);
             (patternRecognition,
              Some (0.3 + vocabulary_score patternWords 3
                            (JsString.toLowerCase message) * 0.7)%float);
             (selfReflectionDepth,
              Some (0.2 + vocabulary_score reflectionWords 4
                            (JsString.toLowerCase message) * 0.8)%float);
             (creativityIndex,
              Some (0.2 + vocabulary_score creativeWords 3
                            (JsString.toLowerCase message) * 0.8)%float);
             (empathyResonance,
              Some (0.3 + vocabulary_score empathyWords 3
                            (JsString.toLowerCase message) * 0.7)%float);
             (intentionalityClarity,
              Some (0.3 + vocabulary_score intentWords 3
                            (JsString.toLowerCase message) * 0.7)%float);
             (brainwaveCoherence,
              Some (0.4 + Math_random rt (random_draws w) * 0.2)%float);
             (autonomicBalance,
              Some (0.5 + Math_random rt (S (random_draws w)) * 0.1)%float);
             (responseLatency, Some latency);
             (interactionPattern,
              Some (0.6 + Math_random rt (S (S (random_draws w))) * 0.2)%float) ],
       advance w 0 3)
    /\ latency
       = Number.Math_max 100
           (Number.of_nat (length (JsString.split_spaces message)) * 50)%float.
Proof.
  unfold analyzeMessageForMetrics. cbv zeta.
  rewrite (bind_returns _ _ _ _ _ (random_returns rt w)).
  rewrite (bind_returns _ _ _ _ _ (random_returns rt _)).
  rewrite (bind_returns _ _ _ _ _ (random_returns rt _)).
  unfold ret. rewrite !advance_advance. eexists _, _. split; reflexivity.
Qed.

(** [analyzeMessageForMetrics] always returns the same eleven metrics,
    after three draws from the random source; the six scored from word
    lists stay in their bands: emotional depth, self-reflection depth and
    creativity between 0.2 and 1, pattern recognition, empathy resonance
    and intentionality clarity between 0.3 and 1. *)
Theorem analyzeMessageForMetrics_bands (rt : Runtime) (message : string) (w : World) :
  exists m : PartialMetrics,
    analyzeMessageForMetrics rt message w = (inr m, advance w 0 3)
    /\ Object_keys m
       = [emotionalDepth; neuralComplexity; patternRecognition; selfReflectionDepth;
          creativityIndex; empathyResonance; intentionalityClarity; brainwaveCoherence;
          autonomicBalance; responseLatency; interactionPattern]
    /\ (exists v, obj_get m emotionalDepth = Some (Some v) /\ within 0.2 v = true)
    /\ (exists v, obj_get m selfReflectionDepth = Some (Some v) /\ within 0.2 v = true)
    /\ (exists v, obj_get m creativityIndex = Some (Some v) /\ within 0.2 v = true)
    /\ (exists v, obj_get m patternRecognition = Some (Some v) /\ within 0.3 v = true)
    /\ (exists v, obj_get m empathyResonance = Some (Some v) /\ within 0.3 v = true)
    /\ (exists v, obj_get m intentionalityClarity = Some (Some v) /\ within 0.3 v = true).
Proof.
  destruct (analyzeMessageForMetrics_eq rt message w) as (complexity & latency & Hrun & _).
  eexists. split; [exact Hrun |]. split; [reflexivity |].
  unfold vocabulary_score.
  repeat split; eexists; (split; [reflexivity |]).
  - apply score_within_fifth_quarter.
    etransitivity; [apply count_included_le | cbn; lia].
  - apply score_within_fifth_quarter.
    etransitivity; [apply count_included_le | cbn; lia].
  - apply score_within_fifth_third.
    etransitivity; [apply count_included_le | cbn; lia].
  - apply score_within_three_tenths.
    etransitivity; [apply count_included_le | cbn; lia].
  - apply score_within_three_tenths.
    etransitivity; [apply count_included_le | cbn; lia].
  - apply score_within_three_tenths.
    etransitivity; [apply count_included_le | cbn; lia].
Qed.


